(** * DataGrid: a shallow embedding of the state machine of
      [src/datagrid/DataGrid.tsx] and the properties of its pagination,
      sorting, selection and row expansion.

    Conventions of the embedding.

    - JavaScript numbers that hold page indices, page sizes and item counts
      are integers ([Z]).  [parseInt] is the one place where [NaN] can
      appear, so its result has a type of its own ([jsnum]).
    - An optional field [x?: T] is an [option T]; [undefined] is [None].
    - The component is one record, [DataGrid]: the part of [this.props] that
      the modelled methods read, [this.state], the text of the page-index
      input box ([pageIndexRef]), the store of [DataGridSort] objects and the
      list of calls made to the injected callbacks.
    - [DataGridSort] objects are mutated in place through the columns that
      reference them, so they live in a store ([sorts]) and a column holds a
      reference.  Rows and pagination are mutated through the state only and
      are kept as values.
    - The injected callbacks return promises.  A method that starts one
      records the call in [calls]; what its [then] callback does when the
      promise resolves is a function of its own, named [<method>_then], that
      receives the resolved value. *)

From Stdlib Require Import ZArith List String Ascii Bool Lia.
From stdpp Require Import base option list strings pretty gmap.

Local Open Scope string_scope.
Local Open Scope Z_scope.

(** ** Data model *)

(** Opaque payloads ([cellData: any], [expandableContent: any]). *)
Definition any := string.

(** Identity of an injected callback. *)
Definition callback := nat.

(** Reference to a [DataGridSort] object. *)
Definition loc := nat.

Inductive SortOrder : Type :=
  | DESC
  | ASC
  | NONE.

Inductive GridSelectionType : Type :=
  | MULTI
  | SINGLE.

Record DataGridSort : Type := mkSort {
  defaultSortOrder : SortOrder;
  isSorted : option bool;
  sortFunction : callback;
}.

Record DataGridColumn : Type := mkColumn {
  columnName : string;
  columnID : option nat;
  sort : option loc;
  isVisible : option bool;
  width : option Z;
}.

Record expandableRowDetails : Type := mkExpandable {
  isLoadingRow : option bool;           (* [isLoading] of the row *)
  onRowExpand : option callback;
  expandableContent : option any;
  isExpanded : option bool;
  hideRowExpandIcon : option bool;
}.

Record DataGridCell : Type := mkCell {
  cellData : any;
  cellColumnName : string;
}.

Record DataGridRow : Type := mkRow {
  rowData : list DataGridCell;
  rowID : option nat;
  isSelected : option bool;
  expandableRowData : option expandableRowDetails;
  disableRowSelection : option bool;
}.

(** [DataGridPaginationProps]; its fields share names with the state's. *)
Module PaginationProps.
Record t : Type := mk {
  currentPage : option Z;
  pageSize : option Z;
  pageSizes : option (list Z);
  totalItems : Z;
  compactFooter : option bool;
  getPageData : option callback;
}.
End PaginationProps.

Record DataGridPaginationState : Type := mkPagination {
  currentPage : Z;
  pageSize : Z;
  totalItems : Z;
  firstItem : Z;
  lastItem : Z;
  totalPages : Z;
  pageSizes : option (list Z);
  compactFooter : option bool;
}.

(** Calls to the injected callbacks, in the order they are made. *)
Inductive Call : Type :=
  | CallGetPageData (pageIndex pageSize : Z)
  | CallOnRowExpand (rowID : nat) (row : DataGridRow)
  | CallSortFunction (f : callback) (rows : list DataGridRow)
                     (order : SortOrder) (columnName : string)
  | CallUpdateDataGridColumns (columns : list DataGridColumn).

Record DataGrid : Type := mkGrid {
  (* this.props *)
  props_pagination : option PaginationProps.t;
  props_selectionType : option GridSelectionType;
  props_updateDataGridColumns : bool;   (* footer.hideShowColumns.updateDataGridColumns is set *)
  (* this.state *)
  selectAll : bool;
  allColumns : list DataGridColumn;
  allRows : list DataGridRow;
  pagination : option DataGridPaginationState;
  isLoading : bool;
  (* this.pageIndexRef.current.value, when the input box is mounted *)
  pageIndexRef : option string;
  (* the DataGridSort objects the columns refer to *)
  sorts : gmap loc DataGridSort;
  (* callback invocations so far *)
  calls : list Call;
}.

(** A method either returns or throws a [TypeError] (a property read on
    [undefined]). *)
Inductive result (A : Type) : Type :=
  | Ok (a : A)
  | TypeError.
Arguments Ok {A} a.
Arguments TypeError {A}.

(** *** Field updates *)

Definition with_selectAll (b : bool) (g : DataGrid) : DataGrid :=
  mkGrid (props_pagination g) (props_selectionType g) (props_updateDataGridColumns g)
         b (allColumns g) (allRows g) (pagination g) (isLoading g)
         (pageIndexRef g) (sorts g) (calls g).

Definition with_allColumns (cs : list DataGridColumn) (g : DataGrid) : DataGrid :=
  mkGrid (props_pagination g) (props_selectionType g) (props_updateDataGridColumns g)
         (selectAll g) cs (allRows g) (pagination g) (isLoading g)
         (pageIndexRef g) (sorts g) (calls g).

Definition with_allRows (rs : list DataGridRow) (g : DataGrid) : DataGrid :=
  mkGrid (props_pagination g) (props_selectionType g) (props_updateDataGridColumns g)
         (selectAll g) (allColumns g) rs (pagination g) (isLoading g)
         (pageIndexRef g) (sorts g) (calls g).

Definition with_pagination (p : option DataGridPaginationState) (g : DataGrid) : DataGrid :=
  mkGrid (props_pagination g) (props_selectionType g) (props_updateDataGridColumns g)
         (selectAll g) (allColumns g) (allRows g) p (isLoading g)
         (pageIndexRef g) (sorts g) (calls g).

Definition with_isLoading (b : bool) (g : DataGrid) : DataGrid :=
  mkGrid (props_pagination g) (props_selectionType g) (props_updateDataGridColumns g)
         (selectAll g) (allColumns g) (allRows g) (pagination g) b
         (pageIndexRef g) (sorts g) (calls g).

Definition with_pageIndexRef (v : option string) (g : DataGrid) : DataGrid :=
  mkGrid (props_pagination g) (props_selectionType g) (props_updateDataGridColumns g)
         (selectAll g) (allColumns g) (allRows g) (pagination g) (isLoading g)
         v (sorts g) (calls g).

Definition with_sorts (h : gmap loc DataGridSort) (g : DataGrid) : DataGrid :=
  mkGrid (props_pagination g) (props_selectionType g) (props_updateDataGridColumns g)
         (selectAll g) (allColumns g) (allRows g) (pagination g) (isLoading g)
         (pageIndexRef g) h (calls g).

Definition record_call (c : Call) (g : DataGrid) : DataGrid :=
  mkGrid (props_pagination g) (props_selectionType g) (props_updateDataGridColumns g)
         (selectAll g) (allColumns g) (allRows g) (pagination g) (isLoading g)
         (pageIndexRef g) (sorts g) (calls g ++ [c]).

(** JavaScript truthiness of an optional boolean field. *)
Definition truthy (b : option bool) : bool :=
  match b with
  | Some true => true
  | _ => false
  end.

(** ** Row identity and selection *)

(** [updateRowIDs]: [rowID] becomes the index in the array. *)
Definition updateRowIDs (rows : list DataGridRow) : list DataGridRow :=
  imap (fun index row =>
          mkRow (rowData row) (Some index) (isSelected row)
                (expandableRowData row) (disableRowSelection row)) rows.

(** [getSelectionEnabledRows]: [allRows.filter(row => !row.disableRowSelection)]. *)
Definition getSelectionEnabledRows (allRows : list DataGridRow) : list DataGridRow :=
  List.filter (fun row => negb (truthy (disableRowSelection row))) allRows.

(** Modelled from the spec: [allTrueOnKey] is imported from [../utils], which
    is not part of the sources at hand.  The spec reads its result on the key
    ["isSelected"] as: every row has [selected = true]. *)
Definition allTrueOnKey_isSelected (rows : list DataGridRow) : bool :=
  forallb (fun row => truthy (isSelected row)) rows.

(** [isAllRowsSelected]. *)
Definition isAllRowsSelected (allRows : list DataGridRow) : bool :=
  let rows := getSelectionEnabledRows allRows in
  if (0 <? length rows)%nat then allTrueOnKey_isSelected rows else false.

(** ** Loading flag *)

Definition showLoader (g : DataGrid) : DataGrid := with_isLoading true g.
Definition hideLoader (g : DataGrid) : DataGrid := with_isLoading false g.

(** ** Pagination *)

(** [Math.floor((totalItems + pageSize - 1) / pageSize)]; [Z.div] rounds
    towards minus infinity, as [Math.floor] of the quotient does
    ([pageSize <> 0]). *)
Definition getTotalPages (totalItems pageSize : Z) : Z :=
  (totalItems + pageSize - 1) / pageSize.

Definition getFirstItemIndex (page pageSize : Z) : Z :=
  page * pageSize - (pageSize - 1).

Definition getLastItemIndex (pageSize totalItems firstItem : Z) : Z :=
  Z.min (firstItem + pageSize - 1) totalItems.

(** The [pagination] entry of the initial [state] literal. *)
Definition initialPagination (pp : PaginationProps.t) : DataGridPaginationState :=
  {| currentPage := default 1 (PaginationProps.currentPage pp);
     pageSize := default 10 (PaginationProps.pageSize pp);
     totalItems := PaginationProps.totalItems pp;
     pageSizes := PaginationProps.pageSizes pp;
     firstItem := 0;
     lastItem := 0;
     totalPages := 1;
     compactFooter := Some (default false (PaginationProps.compactFooter pp)) |}.

(** [setInitalStateForPagination]. *)
Definition setInitalStateForPagination (g : DataGrid) : DataGrid :=
  match pagination g with
  | Some p =>
      let firstItem := getFirstItemIndex (currentPage p) (pageSize p) in
      let lastItem := getLastItemIndex (pageSize p) (totalItems p) firstItem in
      with_pagination
        (Some {| currentPage := currentPage p;
                 pageSize := pageSize p;
                 totalItems := totalItems p;
                 firstItem := firstItem;
                 lastItem := lastItem;
                 totalPages := getTotalPages (totalItems p) (pageSize p);
                 pageSizes := pageSizes p;
                 compactFooter := Some (default false (compactFooter p)) |}) g
  | None => g
  end.

(** The pagination part of construction: the [state] initialiser followed by
    the constructor's [if (this.props.pagination !== undefined)
    this.setInitalStateForPagination()].  [g] carries the props. *)
Definition constructor_pagination (g : DataGrid) : DataGrid :=
  let g := with_pagination (initialPagination <$> props_pagination g) g in
  match props_pagination g with
  | Some _ => setInitalStateForPagination g
  | None => g
  end.

(** [updateRows]. *)
Definition updateRows (rows : list DataGridRow) (totalItems' : option Z)
    (g : DataGrid) : DataGrid :=
  let updatedRows := updateRowIDs rows in
  let g :=
    match pagination g, totalItems' with
    | Some p, Some totalItems =>
        let totalPages := getTotalPages totalItems (pageSize p) in
        let currentPage := if totalPages <? currentPage p then 1 else currentPage p in
        let firstItem := getFirstItemIndex currentPage (pageSize p) in
        let lastItem := getLastItemIndex (pageSize p) totalItems firstItem in
        let g :=
          match pageIndexRef g with
          | Some _ => with_pageIndexRef (Some (pretty currentPage)) g
          | None => g
          end in
        with_pagination
          (Some {| currentPage := currentPage;
                   pageSize := pageSize p;
                   totalItems := totalItems;
                   firstItem := firstItem;
                   lastItem := lastItem;
                   totalPages := totalPages;
                   pageSizes := pageSizes p;
                   compactFooter := Some (default false (compactFooter p)) |}) g
    | _, _ => g
    end in
  with_selectAll (isAllRowsSelected updatedRows) (with_allRows updatedRows g).

(** [getPage], up to the call of [getPageData].  The pagination object is
    updated in place before the promise resolves. *)
Definition getPage (pageIndex pageSize' : Z) (g : DataGrid) : DataGrid :=
  match pagination g, props_pagination g with
  | Some p, Some pp =>
      let g := showLoader g in
      let totalItems := totalItems p in
      let totalPages :=
        if decide (pageSize p <> pageSize') then getTotalPages totalItems pageSize'
        else totalPages p in
      (* if (pageIndex > totalPages! && totalPages) *)
      let pageIndex :=
        if (totalPages <? pageIndex) && negb (totalPages =? 0) then totalPages
        else pageIndex in
      let pageIndex := if pageIndex <? 1 then 1 else pageIndex in
      let g :=
        match pageIndexRef g with
        | Some _ => with_pageIndexRef (Some (pretty pageIndex)) g
        | None => g
        end in
      match PaginationProps.getPageData pp with
      | Some _ =>
          let firstItem := getFirstItemIndex pageIndex pageSize' in
          let lastItem := getLastItemIndex pageSize' totalItems firstItem in
          let paginationState :=
            {| currentPage := pageIndex;
               pageSize := pageSize';
               totalItems := totalItems;
               firstItem := firstItem;
               lastItem := lastItem;
               totalPages := getTotalPages totalItems pageSize';
               pageSizes := pageSizes p;
               compactFooter := compactFooter p |} in
          record_call (CallGetPageData pageIndex pageSize')
                      (with_pagination (Some paginationState) g)
      | None => g
      end
  | _, _ => g
  end.

(** The [then] callback of [getPage]: [data] is what [getPageData] resolved
    to.  [paginationState] is the state's own pagination object, already
    updated by [getPage]. *)
Definition getPage_then (data : list DataGridRow) (g : DataGrid) : DataGrid :=
  let rows := updateRowIDs data in
  hideLoader (with_selectAll (isAllRowsSelected rows) (with_allRows rows g)).

(** *** The page-index input box *)

(** A JavaScript number that may be [NaN]. *)
Inductive jsnum : Type :=
  | NaN
  | Num (z : Z).

(** Truthiness of a number: [NaN] and [0] are falsy. *)
Definition jsnum_truthy (n : jsnum) : bool :=
  match n with
  | NaN => false
  | Num z => negb (z =? 0)
  end.

(** White space skipped by [parseInt] (the ASCII part of it): tab, line
    feed, vertical tab, form feed, carriage return, space. *)
Definition isWhiteSpace (a : ascii) : bool :=
  let n := nat_of_ascii a in
  ((9 <=? n) && (n <=? 13) || (n =? 32))%nat.

Fixpoint trimStart (s : string) : string :=
  match s with
  | String a s' => if isWhiteSpace a then trimStart s' else s
  | EmptyString => s
  end.

(** Value of a character as a digit, up to base 16. *)
Definition digitValue (a : ascii) : option Z :=
  let n := Z.of_nat (nat_of_ascii a) in
  if (48 <=? n) && (n <=? 57) then Some (n - 48)
  else if (97 <=? n) && (n <=? 102) then Some (n - 87)
  else if (65 <=? n) && (n <=? 70) then Some (n - 55)
  else None.

Definition radixDigit (R : Z) (a : ascii) : option Z :=
  match digitValue a with
  | Some d => if d <? R then Some d else None
  | None => None
  end.

(** The longest prefix of radix-[R] digits, as a number; [acc] is [None]
    until a digit has been read. *)
Fixpoint parseDigits (R : Z) (acc : option Z) (s : string) : option Z :=
  match s with
  | String a s' =>
      match radixDigit R a with
      | Some d => parseDigits R (Some (default 0 acc * R + d)) s'
      | None => acc
      end
  | EmptyString => acc
  end.

(** [parseInt(string)] without a radix argument: leading white space, an
    optional sign, an optional [0x]/[0X] prefix, then digits; [NaN] when no
    digit follows. *)
Definition parseInt (s : string) : jsnum :=
  let s := trimStart s in
  let '(sign, s) :=
    match s with
    | String "-" r => (-1, r)
    | String "+" r => (1, r)
    | _ => (1, s)
    end in
  let '(R, s) :=
    match s with
    | String "0" (String "x" r) => (16, r)
    | String "0" (String "X" r) => (16, r)
    | _ => (10, s)
    end in
  match parseDigits R None s with
  | Some n => Num (sign * n)
  | None => NaN
  end.

(** [handlePageChange].  [pageIndex] is [null] when the input box is not
    mounted, else the result of [parseInt]; [if (pageIndex)] tests its
    truthiness before [isNaN] is consulted. *)
Definition handlePageChange (g : DataGrid) : result DataGrid :=
  match pagination g with
  | None => TypeError
  | Some p =>
      match parseInt <$> pageIndexRef g with
      | None => Ok g
      | Some pageIndex =>
          if jsnum_truthy pageIndex then
            match pageIndex with
            | NaN => Ok (with_pageIndexRef (Some (pretty (currentPage p))) g)
            | Num n => Ok (getPage n (pageSize p) g)
            end
          else Ok g
      end
  end.

(** ** Expandable rows *)

Definition with_expandableRowData (e : expandableRowDetails) (row : DataGridRow)
    : DataGridRow :=
  mkRow (rowData row) (rowID row) (isSelected row) (Some e) (disableRowSelection row).

(** [toggleExpand], up to the call of [onRowExpand].  The [expandableRowData]
    object is kept as a value of its row: what the statements below say about
    a toggle concerns the toggled row, not rows that refer to the same
    object. *)
Definition toggleExpand (rowID : nat) (g : DataGrid) : result DataGrid :=
  match allRows g !! rowID with
  | None => TypeError
  | Some row =>
      match expandableRowData row with
      | Some e =>
          let e := mkExpandable (isLoadingRow e) (onRowExpand e) (expandableContent e)
                                (Some (negb (truthy (isExpanded e))))
                                (hideRowExpandIcon e) in
          match onRowExpand e, truthy (isExpanded e) with
          | Some _, true =>
              let e := mkExpandable (Some true) (onRowExpand e) (expandableContent e)
                                    (isExpanded e) (hideRowExpandIcon e) in
              let row := with_expandableRowData e row in
              Ok (record_call (CallOnRowExpand rowID row)
                              (with_allRows (<[rowID := row]> (allRows g)) g))
          | _, _ =>
              Ok (with_allRows (<[rowID := with_expandableRowData e row]> (allRows g)) g)
          end
      | None => Ok g
      end
  end.

(** The [then] callback of [toggleExpand]: [content] is what [onRowExpand]
    resolved to.  The callback writes to the [expandableRowData] object it
    captured, which is the one the row at [rowID] holds as long as the row
    sequence has not been replaced in between. *)
Definition toggleExpand_then (rowID : nat) (content : option any) (g : DataGrid)
    : DataGrid :=
  match allRows g !! rowID with
  | Some row =>
      match expandableRowData row with
      | Some e =>
          let e := mkExpandable (Some false) (onRowExpand e) content
                                (isExpanded e) (hideRowExpandIcon e) in
          with_allRows (<[rowID := with_expandableRowData e row]> (allRows g)) g
      | None => g
      end
  | None => g
  end.

(** ** Columns *)

Definition with_sort (s : option loc) (c : DataGridColumn) : DataGridColumn :=
  mkColumn (columnName c) (columnID c) s (isVisible c) (width c).

(** [updateColumnIDs]. *)
Definition updateColumnIDs (columns : list DataGridColumn) : list DataGridColumn :=
  imap (fun index c =>
          mkColumn (columnName c) (Some index) (sort c) (isVisible c) (width c)) columns.

(** [setColumnVisibility]. *)
Definition setColumnVisibility (columns : list DataGridColumn) : list DataGridColumn :=
  (fun c =>
     mkColumn (columnName c) (columnID c) (sort c)
              (Some (default true (isVisible c))) (width c)) <$> columns.

(** [allColumns.find(col => col.columnName === columnName)]. *)
Definition findColumn (allColumns : list DataGridColumn) (name : string)
    : option DataGridColumn :=
  List.find (fun col => String.eqb (columnName col) name) allColumns.

(** [setSortingState]: [column.sort = col && col.sort] for a column that
    declares a sort spec. *)
Definition setSortingState (allColumns columns : list DataGridColumn)
    : list DataGridColumn :=
  (fun column =>
     match sort column with
     | Some _ => with_sort (findColumn allColumns (columnName column) ≫= sort) column
     | None => column
     end) <$> columns.

(** [updateColumns].  The sort spec objects that [cols] declare are objects
    of the same store. *)
Definition updateColumns (cols : list DataGridColumn) (g : DataGrid) : DataGrid :=
  let columnsWithVisibility := setColumnVisibility cols in
  let columnsWithSort := setSortingState (allColumns g) columnsWithVisibility in
  let updatedCols := updateColumnIDs columnsWithSort in
  let g := with_allColumns updatedCols g in
  if props_updateDataGridColumns g
  then record_call (CallUpdateDataGridColumns updatedCols) g
  else g.

(** ** Sorting *)

(** The order [handleSort] asks for, from the order passed to it. *)
Definition nextSortOrder (defaultSortOrder : SortOrder) : SortOrder :=
  match defaultSortOrder with
  | NONE | DESC => ASC
  | ASC => DESC
  end.

Definition clear_isSorted (s : DataGridSort) : DataGridSort :=
  mkSort (defaultSortOrder s) (Some false) (sortFunction s).

(** [allColumns.forEach(col => { if (col.sort) col.sort.isSorted = false })]. *)
Definition clearSortedFlags (allColumns : list DataGridColumn)
    (h : gmap loc DataGridSort) : gmap loc DataGridSort :=
  foldl (fun h col =>
           match sort col with
           | Some l => alter clear_isSorted l h
           | None => h
           end) h allColumns.

(** [handleSort], up to the call of [sortFunction]. *)
Definition handleSort (columnName : string) (columnID : option nat)
    (sortFunction : callback) (defaultSortOrder : SortOrder) (g : DataGrid)
    : DataGrid :=
  let g := showLoader g in
  match columnID with
  | Some _ =>
      let g := with_sorts (clearSortedFlags (allColumns g) (sorts g)) g in
      record_call
        (CallSortFunction sortFunction (allRows g) (nextSortOrder defaultSortOrder)
                          columnName) g
  | None => g
  end.

(** The [then] callback of [handleSort]: [data] is what [sortFunction]
    resolved to and [order] the [nextSortOrder] the callback captured.  The
    [allColumns] array it captured holds the state's column objects as long
    as the column set has not been replaced in between.
    [allColumns[columnID].sort!] throws when there is no such column or it
    has no sort spec. *)
Definition handleSort_then (columnID : nat) (order : SortOrder)
    (data : list DataGridRow) (g : DataGrid) : result DataGrid :=
  let rows := updateRowIDs data in
  match allColumns g !! columnID ≫= sort with
  | Some l =>
      let h := alter (fun s => mkSort order (Some true) (sortFunction s)) l (sorts g) in
      Ok (hideLoader (with_allRows rows (with_sorts h g)))
  | None => TypeError
  end.

(** What the sort button in the header of the [i]-th column does when it is
    clicked ([buildDataGridColumn]: [handleSort(evt, columnName, columnID,
    sort.sortFunction, sort.defaultSortOrder)]), followed by the resolution
    of the promise with [data].  A column without a sort spec has no button.
    When [columnID] is undefined [handleSort] stops after [showLoader]. *)
Definition activateSort (i : nat) (data : list DataGridRow) (g : DataGrid)
    : result DataGrid :=
  match allColumns g !! i with
  | Some col =>
      match sort col ≫= (fun l => sorts g !! l) with
      | Some s =>
          let g' := handleSort (columnName col) (columnID col) (sortFunction s)
                               (defaultSortOrder s) g in
          match columnID col with
          | Some id => handleSort_then id (nextSortOrder (defaultSortOrder s)) data g'
          | None => Ok g'
          end
      | None => Ok g
      end
  | None => Ok g
  end.

(** The sort spec the [j]-th column refers to. *)
Definition columnSort (g : DataGrid) (j : nat) : option DataGridSort :=
  (allColumns g !! j ≫= sort) ≫= (fun l => sorts g !! l).

(** The active-sort flag of the [j]-th column, as the header reads it
    ([sort.isSorted &&]). *)
Definition isActiveSortColumn (g : DataGrid) (j : nat) : bool :=
  match columnSort g j with
  | Some s => truthy (isSorted s)
  | None => false
  end.

(** The footer shows the pagination controls, the only callers of [getPage],
    under this condition ([buildDataGridFooter]:
    [totalItems && pageSize && totalItems >= pageSize]). *)
Definition renderPaginationFooter (g : DataGrid) : bool :=
  match pagination g with
  | Some p =>
      negb (totalItems p =? 0) && negb (pageSize p =? 0) && (pageSize p <=? totalItems p)
  | None => false
  end.

(** Number of times the content loader has been called for row [rowID]. *)
Definition loaderCalls (rowID : nat) (cs : list Call) : nat :=
  length (List.filter (fun c =>
                         match c with
                         | CallOnRowExpand r _ => Nat.eqb r rowID
                         | _ => false
                         end) cs).

(** ** Predicates used in the statements *)

(** A selection-eligible row: [disableRowSelection] is false or absent. *)
Definition selectionEligible (row : DataGridRow) : Prop :=
  disableRowSelection row = None \/ disableRowSelection row = Some false.

(** Every column has a sort spec object of its own: no two columns refer to
    the same [DataGridSort]. *)
Definition ownSortSpecs (columns : list DataGridColumn) : Prop :=
  forall j k cj ck l,
    columns !! j = Some cj -> columns !! k = Some ck ->
    sort cj = Some l -> sort ck = Some l -> j = k.

(** The derived pagination fields, as the code maintains them: the third
    part says that [totalPages] is the least number of pages of [pageSize]
    items that hold [totalItems] items, that is [ceil(totalItems/pageSize)]. *)
Definition derivedFields (p : DataGridPaginationState) : Prop :=
  firstItem p = (currentPage p - 1) * pageSize p + 1 /\
  lastItem p = Z.min (firstItem p + pageSize p - 1) (totalItems p) /\
  (totalPages p - 1) * pageSize p < totalItems p <= totalPages p * pageSize p.

(** [ceil(a/b)]. *)
Definition ceilDiv (a b : Z) : Z := - ((- a) / b).

(** The derived fields in the spec's words: [totalPages] is
    [ceil(totalItems/pageSize)], minimum 1. *)
Definition derivedFields_spec (p : DataGridPaginationState) : Prop :=
  (0 < totalItems p -> firstItem p = (currentPage p - 1) * pageSize p + 1) /\
  lastItem p = Z.min (firstItem p + pageSize p - 1) (totalItems p) /\
  totalPages p = Z.max 1 (ceilDiv (totalItems p) (pageSize p)) /\
  1 <= totalPages p.

(** The pagination state of a grid, when it has one, has a positive page
    size and its derived fields are up to date. *)
Definition paginationOk (g : DataGrid) : Prop :=
  match pagination g with
  | Some p => 0 < pageSize p /\ derivedFields p
  | None => True
  end.

(** The page [getPage] settles on is visible in three places: the text of
    the input box, the argument of [getPageData] and [currentPage]. *)
Definition resolvesTo (g g' : DataGrid) (pageSize' page : Z) : Prop :=
  (forall v, pageIndexRef g = Some v -> pageIndexRef g' = Some (pretty page)) /\
  (forall pp cb,
      props_pagination g = Some pp -> PaginationProps.getPageData pp = Some cb ->
      calls g' = (calls g ++ [CallGetPageData page pageSize'])%list /\
      currentPage <$> pagination g' = Some page).

(** ** Sample grids *)

(** Sort spec objects: [0] and [1] belong to the columns of [sampleGrid],
    [2] and [3] are fresh declarations that come with [incomingColumns]. *)
Definition sampleSorts : gmap loc DataGridSort :=
  <[0%nat := mkSort NONE None 1%nat]>
    (<[1%nat := mkSort ASC (Some true) 1%nat]>
       (<[2%nat := mkSort NONE None 4%nat]>
          (<[3%nat := mkSort NONE None 4%nat]> ∅))).

Definition sampleColumns : list DataGridColumn :=
  [ mkColumn "name" (Some 0%nat) (Some 0%nat) (Some true) (Some 100);
    mkColumn "type" (Some 1%nat) (Some 1%nat) (Some true) (Some 100);
    mkColumn "size" (Some 2%nat) None (Some true) (Some 100) ].

(** A replacement column set: "type" declares a sort spec again, "name" no
    longer does, "date" is new and declares one. *)
Definition incomingColumns : list DataGridColumn :=
  [ mkColumn "type" None (Some 2%nat) None None;
    mkColumn "name" None None (Some false) None;
    mkColumn "date" None (Some 3%nat) None None ].

(** Two columns declared with one and the same sort spec object. *)
Definition sharedSortGrid : DataGrid :=
  mkGrid None None false false
         [ mkColumn "name" (Some 0%nat) (Some 0%nat) (Some true) (Some 100);
           mkColumn "type" (Some 1%nat) (Some 0%nat) (Some true) (Some 100) ]
         [] None false None
         (<[0%nat := mkSort NONE None 1%nat]> ∅) [].

Definition sampleLoader : expandableRowDetails :=
  mkExpandable None (Some 2%nat) None None None.

Definition sampleRows : list DataGridRow :=
  [ mkRow [mkCell "a" "name"] (Some 0%nat) (Some false) (Some sampleLoader) None;
    mkRow [mkCell "b" "name"] (Some 1%nat) (Some true) None None ].

Definition sampleGrid : DataGrid :=
  mkGrid None (Some MULTI) false false sampleColumns sampleRows None false None
         sampleSorts [].

(** A grid of 25 items in pages of 10, with a page loader. *)
Definition pagedProps : PaginationProps.t :=
  PaginationProps.mk None None (Some [10; 20]) 25 None (Some 3%nat).

Definition pagedGrid : DataGrid :=
  constructor_pagination
    (mkGrid (Some pagedProps) (Some MULTI) false false sampleColumns sampleRows None
            false (Some "1") sampleSorts []).

(** The same grid without a page loader. *)
Definition pagedProps_noLoader : PaginationProps.t :=
  PaginationProps.mk None None (Some [10; 20]) 25 None None.

Definition pagedGrid_noLoader : DataGrid :=
  constructor_pagination
    (mkGrid (Some pagedProps_noLoader) (Some MULTI) false false sampleColumns sampleRows
            None false (Some "1") sampleSorts []).

(** A paginated grid without items. *)
Definition emptyProps : PaginationProps.t :=
  PaginationProps.mk None None None 0 None (Some 3%nat).

Definition emptyGrid : DataGrid :=
  constructor_pagination
    (mkGrid (Some emptyProps) None false false sampleColumns [] None false None
            sampleSorts []).

(** ** Page buttons *)

(** [gotoFirstPage]; [this.state.pagination!] throws when there is no
    pagination state. *)
Definition gotoFirstPage (g : DataGrid) : result DataGrid :=
  match pagination g with
  | Some p => Ok (getPage 1 (pageSize p) g)
  | None => TypeError
  end.

(** [gotoLastPage]. *)
Definition gotoLastPage (g : DataGrid) : result DataGrid :=
  match pagination g with
  | Some p => Ok (getPage (totalPages p) (pageSize p) g)
  | None => TypeError
  end.

(** [gotoNextPage]. *)
Definition gotoNextPage (g : DataGrid) : result DataGrid :=
  match pagination g with
  | Some p =>
      let nextPage := currentPage p + 1 in
      let nextPage := if totalPages p <? nextPage then totalPages p else nextPage in
      Ok (getPage nextPage (pageSize p) g)
  | None => TypeError
  end.

(** [gotoPreviousPage]. *)
Definition gotoPreviousPage (g : DataGrid) : result DataGrid :=
  match pagination g with
  | Some p =>
      let previousPage := currentPage p - 1 in
      let previousPage := if previousPage <? 1 then 1 else previousPage in
      Ok (getPage previousPage (pageSize p) g)
  | None => TypeError
  end.

(** [handlePageChangeOnBlur]. *)
Definition handlePageChangeOnBlur (g : DataGrid) : result DataGrid :=
  handlePageChange g.

(** [handlePageChangeOnKeyDown]: Enter (13) and Tab (9) submit the input. *)
Definition handlePageChangeOnKeyDown (keyCode : Z) (g : DataGrid) : result DataGrid :=
  if (keyCode =? 13) || (keyCode =? 9) then handlePageChange g else Ok g.

(** A string of decimal digits only. *)
Fixpoint decimalDigits (s : string) : bool :=
  match s with
  | String a s' => match radixDigit 10 a with Some _ => decimalDigits s' | None => false end
  | EmptyString => true
  end.

(** ** Selection handlers *)

Definition with_isSelected (b : option bool) (row : DataGridRow) : DataGridRow :=
  mkRow (rowData row) (rowID row) b (expandableRowData row) (disableRowSelection row).

(** [getSelectedRows]: [allRows.filter(row => row.isSelected === true)]. *)
Definition getSelectedRows (g : DataGrid) : list DataGridRow :=
  List.filter (fun row => truthy (isSelected row)) (allRows g).

(** [getAllRows]. *)
Definition getAllRows (g : DataGrid) : list DataGridRow := allRows g.

(** [handleSelectAll]: the state it leaves. *)
Definition handleSelectAll (g : DataGrid) : DataGrid :=
  let rows :=
    (fun row =>
       if negb (truthy (disableRowSelection row))
       then with_isSelected (Some (negb (selectAll g))) row
       else row) <$> allRows g in
  with_allRows rows (with_selectAll (negb (selectAll g)) g).

(** The arguments [handleSelectAll] passes to [props.onSelectAll], when that
    callback is supplied: [(!selectAll, allRows)]. *)
Definition handleSelectAll_onSelectAll (g : DataGrid) : bool * list DataGridRow :=
  (negb (selectAll g), allRows (handleSelectAll g)).

(** [handleSelectSingle]: the state it leaves.  [rowID'] is the [rowID] of
    the row whose checkbox or radio button changed. *)
Definition handleSelectSingle (rowID' : option nat) (g : DataGrid) : DataGrid :=
  let rows :=
    (fun row =>
       if decide (rowID row = rowID')
       then with_isSelected (Some (negb (truthy (isSelected row)))) row
       else match props_selectionType g with
            | Some SINGLE => with_isSelected (Some false) row
            | _ => row
            end) <$> allRows g in
  with_selectAll (isAllRowsSelected rows) (with_allRows rows g).

(** The argument [handleSelectSingle] passes to [props.onRowSelect], when
    that callback is supplied: the last row with that [rowID], after its
    flag has been flipped; [None] is [undefined]. *)
Definition handleSelectSingle_onRowSelect (rowID' : option nat) (g : DataGrid)
    : option DataGridRow :=
  last (List.filter (fun row => bool_decide (rowID row = rowID'))
                    (allRows (handleSelectSingle rowID' g))).

(** ** Column width and initial state *)

Definition DEFAULT_COLUMN_WIDTH : Z := 100.

(** [updateColumnWidth]; [allColumns[col.columnID].width = ...] throws when
    there is no column at that index. *)
Definition updateColumnWidth (col : option DataGridColumn) (g : DataGrid)
    : result DataGrid :=
  match col with
  | Some col =>
      match columnID col with
      | Some id =>
          match allColumns g !! id with
          | Some c =>
              Ok (with_allColumns
                    (<[id := mkColumn (columnName c) (columnID c) (sort c) (isVisible c)
                                      (width col)]> (allColumns g)) g)
          | None => TypeError
          end
      | None => Ok g
      end
  | None => Ok g
  end.

(** [setInitalState]: ids, visibility and width of the columns, ids and
    selection flags of the rows.  [col.width ? col.width :
    DEFAULT_COLUMN_WIDTH] takes the default for a width of 0 as well.  The
    method is called from the constructor only, where [this.setState] has no
    effect: rows and columns are changed in place, [selectAll] keeps the
    value of the state initialiser. *)
Definition setInitalState (g : DataGrid) : DataGrid :=
  let rows := updateRowIDs (allRows g) in
  let columns := updateColumnIDs (setColumnVisibility (allColumns g)) in
  let columns :=
    (fun col =>
       mkColumn (columnName col) (columnID col) (sort col) (isVisible col)
                (Some (match width col with
                       | Some w => if w =? 0 then DEFAULT_COLUMN_WIDTH else w
                       | None => DEFAULT_COLUMN_WIDTH
                       end))) <$> columns in
  let rows :=
    (fun row =>
       let rowSelectionIsDisabled := default false (disableRowSelection row) in
       with_isSelected
         (Some (if negb rowSelectionIsDisabled && bool_decide (is_Some (isSelected row))
                then default false (isSelected row) else false)) row) <$> rows in
  with_allColumns columns (with_allRows rows g).

(** The selection flag agrees with the rows. *)
Definition selectAll_consistent (g : DataGrid) : Prop :=
  selectAll g = isAllRowsSelected (allRows g).

(** Row ids are the positions of the rows. *)
Definition rowIDs_ok (rows : list DataGridRow) : Prop :=
  forall i row, rows !! i = Some row -> rowID row = Some i.

(** ** The tabs component ([src/newTab/NewTab.tsx]) *)

Module NewTabs.

Inductive TabOrientation : Type :=
  | VERTICAL
  | HORIZONTAL.

Inductive TabType : Type :=
  | STATIC
  | SIMPLE.

Record TabDetails : Type := mkTab {
  name : any;
  id : string;
  isSelected : option bool;
  isDisabled : option bool;
  tabType : option TabType;
}.

(** The component: the props the methods read ([tabs], [tabOrientation],
    [overflowTabsFrom]) and the state. *)
Record Tabs : Type := mkTabs {
  tabs : list TabDetails;
  tabOrientation : TabOrientation;
  overflowTabsFrom : option nat;
  isOverflowTabSelected : bool;
  selectedTabId : string;
}.

(** The constructor: [selectedTabId: props.tabs[0].id] throws when there is
    no tab. *)
Definition constructor (tabs : list TabDetails) (tabOrientation : TabOrientation)
    (overflowTabsFrom : option nat) : result Tabs :=
  match tabs with
  | tab :: _ => Ok (mkTabs tabs tabOrientation overflowTabsFrom false (id tab))
  | [] => TypeError
  end.

Definition setSelected (b : bool) (tab : TabDetails) : TabDetails :=
  mkTab (name tab) (id tab) (Some b) (isDisabled tab) (tabType tab).

(** [clickedTab.tabType && clickedTab.tabType === TabType.STATIC]. *)
Definition isStatic (clickedTab : TabDetails) : bool :=
  match tabType clickedTab with
  | Some STATIC => true
  | _ => false
  end.

(** The [tabs.map] loop of [tabClicked], from position [index] on, with the
    two variables it updates. *)
Fixpoint tabClicked_map (clickedTab : TabDetails) (index : nat) (tabs : list TabDetails)
    (lastActiveTabIndex : option nat) (activeLastTab : bool)
    : list TabDetails * option nat * bool :=
  match tabs with
  | [] => ([], lastActiveTabIndex, activeLastTab)
  | tab :: rest =>
      let lastActiveTabIndex :=
        if truthy (isSelected tab) then Some index else lastActiveTabIndex in
      let '(tab', activeLastTab) :=
        if String.eqb (id clickedTab) (id tab) then
          if isStatic clickedTab then (setSelected false tab, true)
          else (setSelected true tab, activeLastTab)
        else (setSelected false tab, activeLastTab) in
      let '(rest', lastActiveTabIndex, activeLastTab) :=
        tabClicked_map clickedTab (S index) rest lastActiveTabIndex activeLastTab in
      (tab' :: rest', lastActiveTabIndex, activeLastTab)
  end.

(** [tabClicked], the handler of the entries of the overflow menu. *)
Definition tabClicked (clickedTab : TabDetails) (isOverflowTab : bool) (c : Tabs) : Tabs :=
  let '(tabs', lastActiveTabIndex, activeLastTab) :=
    tabClicked_map clickedTab 0 (tabs c) None false in
  let tabs' :=
    match activeLastTab, lastActiveTabIndex with
    | true, Some i => alter (setSelected true) i tabs'
    | _, _ => tabs'
    end in
  mkTabs tabs' (tabOrientation c) (overflowTabsFrom c) isOverflowTab (id clickedTab).

(** [tabClick], the handler of the tab buttons. *)
Definition tabClick (clickedTab : TabDetails) (isOverflowTab : bool) (c : Tabs) : Tabs :=
  mkTabs (tabs c) (tabOrientation c) (overflowTabsFrom c) isOverflowTab (id clickedTab).

(** What [renderTabLinks] puts in the tab bar: a button for a tab, with its
    active class, or the overflow menu with the tabs it lists. *)
Inductive TabItem : Type :=
  | TabLink (tab : TabDetails) (index : nat) (active : bool)
  | OverflowTab (overflowTabs : list TabDetails) (index : nat) (active : bool).

(** The [tabs.map] loop of [renderTabLinks], from position [index] on;
    [None] is the [undefined] of a tab that is not rendered on its own. *)
Fixpoint renderTabLinks_map (c : Tabs) (index : nat) (rest : list TabDetails)
    (isOverflowRendered : bool) : list (option TabItem) :=
  match rest with
  | [] => []
  | tab :: rest =>
      if match tabOrientation c with HORIZONTAL => true | VERTICAL => false end
         && bool_decide (overflowTabsFrom c = Some index)
      then Some (OverflowTab (drop index (tabs c)) index (isOverflowTabSelected c))
             :: renderTabLinks_map c (S index) rest true
      else if negb isOverflowRendered
      then Some (TabLink tab index (String.eqb (id tab) (selectedTabId c)))
             :: renderTabLinks_map c (S index) rest isOverflowRendered
      else None :: renderTabLinks_map c (S index) rest isOverflowRendered
  end.

Definition renderTabLinks (c : Tabs) : list (option TabItem) :=
  renderTabLinks_map c 0 (tabs c) false.

(** The tabs that an entry of the tab bar shows. *)
Definition shownTabs (item : option TabItem) : list TabDetails :=
  match item with
  | Some (TabLink tab _ _) => [tab]
  | Some (OverflowTab overflowTabs _ _) => overflowTabs
  | None => []
  end.

(** Position of the last tab whose [isSelected] is truthy. *)
Fixpoint lastSelectedIndex (tabs : list TabDetails) : option nat :=
  match tabs with
  | [] => None
  | tab :: rest =>
      match lastSelectedIndex rest with
      | Some k => Some (S k)
      | None => if truthy (isSelected tab) then Some 0%nat else None
      end
  end.

End NewTabs.

(** A tab bar of a selected tab, a simple tab and a static tab, the last two
    in the overflow menu. *)
Definition sampleTabs : list NewTabs.TabDetails :=
  [ NewTabs.mkTab "Home" "home" (Some true) None None;
    NewTabs.mkTab "Settings" "settings" None None (Some NewTabs.SIMPLE);
    NewTabs.mkTab "Docs" "docs" None None (Some NewTabs.STATIC) ].

Definition sampleTabBar : NewTabs.Tabs :=
  NewTabs.mkTabs sampleTabs NewTabs.HORIZONTAL (Some 1%nat) false "home".

(** * Properties *)

(** ** Selection aggregate *)

Lemma selectionEligible_truthy row :
  negb (truthy (disableRowSelection row)) = true <-> selectionEligible row.
Proof.
  unfold selectionEligible.
  destruct (disableRowSelection row) as [[|]|]; simpl; split; intros H;
    try reflexivity; try discriminate; auto.
  - destruct H; discriminate.
Qed.

Lemma elem_of_getSelectionEnabledRows row allRows :
  row ∈ getSelectionEnabledRows allRows <-> row ∈ allRows /\ selectionEligible row.
Proof.
  unfold getSelectionEnabledRows.
  rewrite !list_elem_of_In, filter_In, selectionEligible_truthy. reflexivity.
Qed.

Lemma truthy_Some_true (b : option bool) : truthy b = true <-> b = Some true.
Proof. destruct b as [[|]|]; simpl; split; congruence. Qed.

(** C9. [isAllRowsSelected] is true exactly when some row is
    selection-eligible and every selection-eligible row has
    [isSelected = true]; when no row is eligible it is false. *)
Theorem isAllRowsSelected_iff (allRows : list DataGridRow) :
  (isAllRowsSelected allRows = true <->
     (exists row, row ∈ allRows /\ selectionEligible row) /\
     (forall row, row ∈ allRows -> selectionEligible row -> isSelected row = Some true))
  /\ ((forall row, row ∈ allRows -> ~ selectionEligible row) ->
      isAllRowsSelected allRows = false).
Proof.
  assert (Hall : allTrueOnKey_isSelected (getSelectionEnabledRows allRows) = true <->
                 forall row, row ∈ allRows -> selectionEligible row ->
                             isSelected row = Some true).
  { unfold allTrueOnKey_isSelected. rewrite forallb_forall. split.
    - intros H row Hin Hel. apply truthy_Some_true, H.
      apply list_elem_of_In, elem_of_getSelectionEnabledRows. auto.
    - intros H row Hin.
      apply list_elem_of_In, elem_of_getSelectionEnabledRows in Hin as [Hin Hel].
      apply truthy_Some_true. auto. }
  unfold isAllRowsSelected; cbv zeta.
  destruct (getSelectionEnabledRows allRows) as [|r rows] eqn:E.
  - simpl. split.
    + split; [discriminate|]. intros [[row Hrow] _].
      apply elem_of_getSelectionEnabledRows in Hrow. rewrite E in Hrow.
      inversion Hrow.
    + reflexivity.
  - assert (Hr : r ∈ allRows /\ selectionEligible r).
    { apply elem_of_getSelectionEnabledRows. rewrite E. left. }
    change (0 <? length (r :: rows))%nat with true. cbv iota. split.
    + rewrite Hall. split; [intros H; split; [exists r|]; auto | intros [_ H]; exact H].
    + intros Hnone. destruct Hr as [Hin Hel]. destruct (Hnone r Hin Hel).
Qed.

(** ** Expandable rows *)

(** C10. Toggling a row that has no [expandableRowData] returns the grid as
    it was: rows, loading flags and the record of loader calls included. *)
Theorem toggleExpand_not_expandable (g : DataGrid) (rowID : nat) (row : DataGridRow) :
  allRows g !! rowID = Some row ->
  expandableRowData row = None ->
  toggleExpand rowID g = Ok g.
Proof.
  intros Hrow Hnone. unfold toggleExpand. rewrite Hrow, Hnone. reflexivity.
Qed.

Lemma toggleExpand_not_expandable_witness :
  toggleExpand 1 sampleGrid = Ok sampleGrid.
Proof.
  apply (toggleExpand_not_expandable sampleGrid 1
           (mkRow [mkCell "b" "name"] (Some 1%nat) (Some true) None None));
    reflexivity.
Defined.

(** ** Sorting *)

Lemma clear_isSorted_twice (o : option DataGridSort) :
  clear_isSorted <$> (clear_isSorted <$> o) = clear_isSorted <$> o.
Proof. destruct o; reflexivity. Qed.

(** [clearSortedFlags] clears the flag of exactly the sort specs that some
    column refers to, and changes nothing else. *)
Lemma clearSortedFlags_lookup (columns : list DataGridColumn)
    (h : gmap loc DataGridSort) (l : loc) :
  clearSortedFlags columns h !! l =
  if decide (Some l ∈ sort <$> columns) then clear_isSorted <$> h !! l else h !! l.
Proof.
  unfold clearSortedFlags. revert h.
  induction columns as [|c columns IH]; intros h; cbn [foldl].
  - case_decide as Hin; [inversion Hin | reflexivity].
  - rewrite IH. clear IH.
    assert (Hstep : match sort c with
                    | Some l' => alter clear_isSorted l' h
                    | None => h
                    end !! l =
                    if decide (sort c = Some l) then clear_isSorted <$> h !! l
                    else h !! l).
    { destruct (sort c) as [l'|].
      - destruct (decide (l' = l)) as [->|Hne].
        + rewrite lookup_alter_eq, decide_True; reflexivity.
        + rewrite lookup_alter_ne by assumption.
          rewrite decide_False; [reflexivity | congruence].
      - rewrite decide_False; [reflexivity | discriminate]. }
    rewrite Hstep.
    destruct (decide (sort c = Some l)) as [Hc|Hc];
      destruct (decide (Some l ∈ sort <$> columns)) as [Hin|Hin];
      case_decide as Hin'; rewrite fmap_cons in Hin';
      try rewrite clear_isSorted_twice; try reflexivity.
    + destruct Hin'. rewrite Hc. left.
    + destruct Hin'. rewrite Hc. left.
    + destruct Hin'. right. exact Hin.
    + apply elem_of_cons in Hin' as [Heq|Hin']; [congruence | contradiction].
Qed.

Lemma sort_elem_of_columns (columns : list DataGridColumn) j c l :
  columns !! j = Some c -> sort c = Some l -> Some l ∈ sort <$> columns.
Proof.
  intros Hj Hl. rewrite <- Hl. apply list_elem_of_fmap_2.
  eapply list_elem_of_lookup_2; eassumption.
Qed.

(** One complete activation of a sortable column, step by step. *)
Lemma activateSort_Ok (g : DataGrid) (i : nat) (col : DataGridColumn) (l : loc)
    (s : DataGridSort) (data : list DataGridRow) :
  allColumns g !! i = Some col ->
  columnID col = Some i ->
  sort col = Some l ->
  sorts g !! l = Some s ->
  exists g',
    activateSort i data g = Ok g' /\
    allColumns g' = allColumns g /\
    sorts g' = alter (fun s' => mkSort (nextSortOrder (defaultSortOrder s)) (Some true)
                                       (sortFunction s'))
                     l (clearSortedFlags (allColumns g) (sorts g)) /\
    calls g' = (calls g ++ [CallSortFunction (sortFunction s) (allRows g)
                                             (nextSortOrder (defaultSortOrder s))
                                             (columnName col)])%list /\
    allRows g' = updateRowIDs data /\
    isLoading g' = false.
Proof.
  intros Hi Hid Hl Hs. unfold activateSort.
  rewrite Hi. simpl. rewrite Hl. simpl. rewrite Hs, Hid.
  unfold handleSort_then, handleSort. simpl. rewrite Hi. simpl. rewrite Hl.
  eexists. split; [reflexivity|]. simpl. repeat split; reflexivity.
Qed.

Lemma activateSort_columnSort (g g' : DataGrid) (i : nat) (col : DataGridColumn)
    (l : loc) (s : DataGridSort) :
  allColumns g !! i = Some col ->
  sort col = Some l ->
  sorts g !! l = Some s ->
  allColumns g' = allColumns g ->
  sorts g' = alter (fun s' => mkSort (nextSortOrder (defaultSortOrder s)) (Some true)
                                     (sortFunction s'))
                   l (clearSortedFlags (allColumns g) (sorts g)) ->
  sorts g' !! l = Some (mkSort (nextSortOrder (defaultSortOrder s)) (Some true)
                               (sortFunction s)).
Proof.
  intros Hi Hl Hs Hcols Hsorts.
  rewrite Hsorts, lookup_alter_eq, clearSortedFlags_lookup.
  rewrite decide_True by (eapply sort_elem_of_columns; eassumption).
  rewrite Hs. reflexivity.
Qed.

Lemma activateSort_step (g : DataGrid) (i : nat) (col : DataGridColumn) (l : loc)
    (s : DataGridSort) (data : list DataGridRow) :
  allColumns g !! i = Some col ->
  columnID col = Some i ->
  sort col = Some l ->
  sorts g !! l = Some s ->
  exists g' s',
    activateSort i data g = Ok g' /\
    allColumns g' !! i = Some col /\
    sorts g' !! l = Some s' /\
    columnSort g' i = Some s' /\
    defaultSortOrder s' = nextSortOrder (defaultSortOrder s) /\
    isSorted s' = Some true.
Proof.
  intros Hi Hid Hl Hs.
  destruct (activateSort_Ok g i col l s data Hi Hid Hl Hs)
    as (g' & Hrun & Hcols & Hsorts & _).
  pose proof (activateSort_columnSort g g' i col l s Hi Hl Hs Hcols Hsorts) as Hl'.
  exists g'. eexists. split; [exact Hrun|].
  split; [rewrite Hcols; exact Hi|]. split; [exact Hl'|].
  split; [|split; reflexivity].
  unfold columnSort. rewrite Hcols, Hi. simpl. rewrite Hl. simpl. exact Hl'.
Qed.

(** C8. Activating a sortable column whose current order is [NONE] or [DESC]
    leaves it at [ASC], activating one whose order is [ASC] leaves it at
    [DESC]; starting from [NONE], three activations in a row give [ASC],
    [DESC], [ASC]. *)
Theorem sort_order_toggle (g : DataGrid) (i : nat) (col : DataGridColumn) (l : loc)
    (s : DataGridSort) :
  allColumns g !! i = Some col ->
  columnID col = Some i ->
  sort col = Some l ->
  sorts g !! l = Some s ->
  (forall data, exists g' s',
      activateSort i data g = Ok g' /\
      columnSort g' i = Some s' /\
      (defaultSortOrder s = NONE \/ defaultSortOrder s = DESC ->
       defaultSortOrder s' = ASC) /\
      (defaultSortOrder s = ASC -> defaultSortOrder s' = DESC))
  /\ (defaultSortOrder s = NONE ->
      forall d1 d2 d3, exists g1 g2 g3 s1 s2 s3,
        activateSort i d1 g = Ok g1 /\
        activateSort i d2 g1 = Ok g2 /\
        activateSort i d3 g2 = Ok g3 /\
        columnSort g1 i = Some s1 /\ defaultSortOrder s1 = ASC /\
        columnSort g2 i = Some s2 /\ defaultSortOrder s2 = DESC /\
        columnSort g3 i = Some s3 /\ defaultSortOrder s3 = ASC).
Proof.
  intros Hi Hid Hl Hs. split.
  - intros data.
    destruct (activateSort_step g i col l s data Hi Hid Hl Hs)
      as (g' & s' & Hrun & _ & _ & Hcs & Hord & _).
    exists g', s'. repeat split; try assumption.
    + intros [H|H]; rewrite Hord, H; reflexivity.
    + intros H; rewrite Hord, H; reflexivity.
  - intros Hnone d1 d2 d3.
    destruct (activateSort_step g i col l s d1 Hi Hid Hl Hs)
      as (g1 & s1 & Hrun1 & Hi1 & Hs1 & Hcs1 & Hord1 & _).
    destruct (activateSort_step g1 i col l s1 d2 Hi1 Hid Hl Hs1)
      as (g2 & s2 & Hrun2 & Hi2 & Hs2 & Hcs2 & Hord2 & _).
    destruct (activateSort_step g2 i col l s2 d3 Hi2 Hid Hl Hs2)
      as (g3 & s3 & Hrun3 & _ & _ & Hcs3 & Hord3 & _).
    rewrite Hnone in Hord1. simpl in Hord1.
    rewrite Hord1 in Hord2. simpl in Hord2.
    rewrite Hord2 in Hord3. simpl in Hord3.
    exists g1, g2, g3, s1, s2, s3. repeat split; assumption.
Qed.

Lemma sort_order_toggle_witness :
  exists g1 g2 g3 s1 s2 s3,
    activateSort 0 [] sampleGrid = Ok g1 /\
    activateSort 0 [] g1 = Ok g2 /\
    activateSort 0 [] g2 = Ok g3 /\
    columnSort g1 0 = Some s1 /\ defaultSortOrder s1 = ASC /\
    columnSort g2 0 = Some s2 /\ defaultSortOrder s2 = DESC /\
    columnSort g3 0 = Some s3 /\ defaultSortOrder s3 = ASC.
Proof.
  refine (proj2 (sort_order_toggle sampleGrid 0
                   (mkColumn "name" (Some 0%nat) (Some 0%nat) (Some true) (Some 100))
                   0%nat (mkSort NONE None 1%nat) _ _ _ _) _ [] [] []);
    reflexivity.
Defined.

(** C7, as the code has it.  When a sort activation of column [i] has
    completed, the active-sort flag is set on column [i] and on no other
    column, provided every column refers to a sort spec object of its own. *)
Theorem sort_exclusive (g : DataGrid) (i : nat) (col : DataGridColumn) (l : loc)
    (s : DataGridSort) (data : list DataGridRow) :
  allColumns g !! i = Some col ->
  columnID col = Some i ->
  sort col = Some l ->
  sorts g !! l = Some s ->
  ownSortSpecs (allColumns g) ->
  exists g',
    activateSort i data g = Ok g' /\
    (forall j, isActiveSortColumn g' j = true <-> j = i) /\
    (forall j k, isActiveSortColumn g' j = true -> isActiveSortColumn g' k = true ->
                 j = k).
Proof.
  intros Hi Hid Hl Hs Hown.
  destruct (activateSort_Ok g i col l s data Hi Hid Hl Hs)
    as (g' & Hrun & Hcols & Hsorts & _).
  pose proof (activateSort_columnSort g g' i col l s Hi Hl Hs Hcols Hsorts) as Hl'.
  assert (Hflag : forall j, isActiveSortColumn g' j = true <-> j = i).
  { intros j. unfold isActiveSortColumn, columnSort. rewrite Hcols. split.
    - destruct (allColumns g !! j) as [cj|] eqn:Hj; simpl; [|discriminate].
      destruct (sort cj) as [lj|] eqn:Hlj; simpl; [|discriminate].
      destruct (decide (lj = l)) as [->|Hne].
      + intros _. exact (Hown j i cj col l Hj Hi Hlj Hl).
      + rewrite Hsorts, lookup_alter_ne by congruence.
        rewrite clearSortedFlags_lookup.
        rewrite decide_True by (eapply sort_elem_of_columns; eassumption).
        destruct (sorts g !! lj); simpl; discriminate.
    - intros ->. rewrite Hi. simpl. rewrite Hl. simpl. rewrite Hl'. reflexivity. }
  exists g'. split; [exact Hrun|]. split; [exact Hflag|].
  intros j k Hj Hk. apply Hflag in Hj, Hk. congruence.
Qed.

(** C7, as stated, fails: the two columns of [sharedSortGrid] refer to one
    sort spec object, and after the first is activated both carry the
    active-sort flag. *)
Lemma shared_sort_flags_both :
  exists g',
    activateSort 0 [] sharedSortGrid = Ok g' /\
    isActiveSortColumn g' 0 = true /\
    isActiveSortColumn g' 1 = true /\
    ~ (forall j k, isActiveSortColumn g' j = true -> isActiveSortColumn g' k = true ->
                   j = k).
Proof.
  eexists. split; [reflexivity|]. split; [reflexivity|]. split; [reflexivity|].
  intros H. specialize (H 0%nat 1%nat eq_refl eq_refl). discriminate.
Qed.

Lemma sampleColumns_ownSortSpecs : ownSortSpecs (allColumns sampleGrid).
Proof.
  intros j k cj ck l Hj Hk Hlj Hlk.
  destruct j as [|[|[|j]]]; destruct k as [|[|[|k]]];
    simpl in Hj, Hk; try discriminate; try reflexivity;
    injection Hj as <-; injection Hk as <-; simpl in Hlj, Hlk; congruence.
Qed.

Lemma sort_exclusive_witness :
  exists g',
    activateSort 0 [] sampleGrid = Ok g' /\
    (forall j, isActiveSortColumn g' j = true <-> j = 0%nat) /\
    (forall j k, isActiveSortColumn g' j = true -> isActiveSortColumn g' k = true ->
                 j = k).
Proof.
  apply (sort_exclusive sampleGrid 0
           (mkColumn "name" (Some 0%nat) (Some 0%nat) (Some true) (Some 100))
           0%nat (mkSort NONE None 1%nat) []);
    try reflexivity.
  exact sampleColumns_ownSortSpecs.
Defined.

(** ** Column replacement *)

(** [findColumn] returns the first column of that name. *)
Lemma findColumn_first (columns : list DataGridColumn) (name : string) k p :
  columns !! k = Some p ->
  columnName p = name ->
  (forall k' p', (k' < k)%nat -> columns !! k' = Some p' -> columnName p' <> name) ->
  findColumn columns name = Some p.
Proof.
  unfold findColumn. revert k.
  induction columns as [|c columns IH]; intros k Hk Hname Hfirst; [discriminate|].
  simpl. destruct k as [|k].
  - injection Hk as ->. rewrite (proj2 (String.eqb_eq _ _) Hname). reflexivity.
  - assert (Hc : columnName c <> name) by (apply (Hfirst 0%nat c); [lia | reflexivity]).
    rewrite (proj2 (String.eqb_neq _ _) Hc).
    apply (IH k); [exact Hk | exact Hname |].
    intros k' p' Hlt Hk'. apply (Hfirst (S k') p'); [lia | exact Hk'].
Qed.

Lemma findColumn_none (columns : list DataGridColumn) (name : string) :
  (forall p, p ∈ columns -> columnName p <> name) ->
  findColumn columns name = None.
Proof.
  unfold findColumn.
  induction columns as [|c columns IH]; intros Hno; [reflexivity|].
  simpl. rewrite (proj2 (String.eqb_neq _ _) (Hno c ltac:(left))).
  apply IH. intros p Hp. apply Hno. right. exact Hp.
Qed.

Lemma allColumns_updateColumns (cols : list DataGridColumn) (g : DataGrid) :
  allColumns (updateColumns cols g) =
  updateColumnIDs (setSortingState (allColumns g) (setColumnVisibility cols)) /\
  sorts (updateColumns cols g) = sorts g.
Proof.
  unfold updateColumns; cbv zeta.
  destruct (props_updateDataGridColumns _); split; reflexivity.
Qed.

(** C6. After a column-set replacement the [i]-th column keeps the name of
    the [i]-th incoming column [c], and
    - if [c] declares no sort spec it has none, whatever the prior columns had;
    - if [c] declares one and [p] is the (first) prior column of that name, it
      refers to the sort spec of [p], so that it reads the order and the
      active flag stored for [p];
    - if [c] declares one and no prior column has that name, it has none. *)
Theorem updateColumns_carries_sort (g : DataGrid) (cols : list DataGridColumn)
    (i : nat) (c : DataGridColumn) :
  cols !! i = Some c ->
  exists c',
    allColumns (updateColumns cols g) !! i = Some c' /\
    columnName c' = columnName c /\
    (sort c = None -> sort c' = None) /\
    (forall k p,
        is_Some (sort c) ->
        allColumns g !! k = Some p ->
        columnName p = columnName c ->
        (forall k' p', (k' < k)%nat -> allColumns g !! k' = Some p' ->
                       columnName p' <> columnName c) ->
        sort c' = sort p /\
        columnSort (updateColumns cols g) i = columnSort g k) /\
    (is_Some (sort c) ->
     (forall p, p ∈ allColumns g -> columnName p <> columnName c) ->
     sort c' = None).
Proof.
  intros Hi.
  destruct (allColumns_updateColumns cols g) as [Hcols Hsorts].
  assert (Hlook : allColumns (updateColumns cols g) !! i =
                  Some (mkColumn (columnName c) (Some i)
                          (match sort c with
                           | Some _ => findColumn (allColumns g) (columnName c) ≫= sort
                           | None => None
                           end)
                          (Some (default true (isVisible c))) (width c))).
  { rewrite Hcols. unfold updateColumnIDs, setSortingState, setColumnVisibility.
    rewrite list_lookup_imap, !list_lookup_fmap, Hi. simpl.
    destruct (sort c); reflexivity. }
  eexists. split; [exact Hlook|]. simpl. split; [reflexivity|].
  split; [|split].
  - intros ->. reflexivity.
  - intros k p [l Hl] Hk Hname Hfirst. rewrite Hl.
    rewrite (findColumn_first _ _ k p Hk Hname Hfirst). simpl. split; [reflexivity|].
    unfold columnSort. rewrite Hlook, Hsorts, Hk. simpl.
    rewrite Hl, (findColumn_first _ _ k p Hk Hname Hfirst). reflexivity.
  - intros [l Hl] Hno. rewrite Hl, (findColumn_none _ _ Hno). reflexivity.
Qed.

Lemma updateColumns_carries_sort_witness :
  exists c',
    allColumns (updateColumns incomingColumns sampleGrid) !! 0%nat = Some c' /\
    columnName c' = "type" /\
    sort c' = Some 1%nat /\
    columnSort (updateColumns incomingColumns sampleGrid) 0 =
      Some (mkSort ASC (Some true) 1%nat).
Proof.
  destruct (updateColumns_carries_sort sampleGrid incomingColumns 0
              (mkColumn "type" None (Some 2%nat) None None) eq_refl)
    as (c' & Hlook & Hname & _ & Hcarry & _).
  exists c'. split; [exact Hlook|]. split; [exact Hname|].
  destruct (Hcarry 1%nat (mkColumn "type" (Some 1%nat) (Some 1%nat) (Some true) (Some 100)))
    as [Hsort Hspec].
  - exists 2%nat. reflexivity.
  - reflexivity.
  - reflexivity.
  - intros k' p' Hlt Hk'. destruct k' as [|k']; [|lia].
    injection Hk' as <-. discriminate.
  - split; [exact Hsort | rewrite Hspec; reflexivity].
Defined.

(** ** Row expansion with a content loader *)

Lemma loaderCalls_snoc (rowID : nat) (cs : list Call) (row : DataGridRow) :
  loaderCalls rowID (cs ++ [CallOnRowExpand rowID row]) = S (loaderCalls rowID cs).
Proof.
  unfold loaderCalls. rewrite List.filter_app, List.length_app. simpl.
  rewrite Nat.eqb_refl. simpl. lia.
Qed.

(** C3, as the code has it.  For a row with a content loader, a toggle that
    expands the row calls the loader once more, every time; a toggle that
    collapses it calls nothing; both keep the content stored so far, and the
    content is replaced when a fetch completes. *)
Theorem toggleExpand_loader (g : DataGrid) (rowID : nat) (row : DataGridRow)
    (e : expandableRowDetails) (f : callback) :
  allRows g !! rowID = Some row ->
  expandableRowData row = Some e ->
  onRowExpand e = Some f ->
  exists g' row' e',
    toggleExpand rowID g = Ok g' /\
    allRows g' !! rowID = Some row' /\
    expandableRowData row' = Some e' /\
    onRowExpand e' = Some f /\
    expandableContent e' = expandableContent e /\
    isExpanded e' = Some (negb (truthy (isExpanded e))) /\
    (truthy (isExpanded e) = false ->
       calls g' = (calls g ++ [CallOnRowExpand rowID row'])%list /\
       loaderCalls rowID (calls g') = S (loaderCalls rowID (calls g)) /\
       isLoadingRow e' = Some true) /\
    (truthy (isExpanded e) = true ->
       calls g' = calls g /\ isLoadingRow e' = isLoadingRow e) /\
    (forall content, exists row'' e'',
       allRows (toggleExpand_then rowID content g') !! rowID = Some row'' /\
       expandableRowData row'' = Some e'' /\
       expandableContent e'' = content /\
       isLoadingRow e'' = Some false /\
       isExpanded e'' = isExpanded e' /\
       calls (toggleExpand_then rowID content g') = calls g').
Proof.
  intros Hrow He Hf.
  assert (Hlt : (rowID < length (allRows g))%nat) by (eapply lookup_lt_Some; eassumption).
  unfold toggleExpand. rewrite Hrow, He. cbv zeta. simpl. rewrite Hf.
  destruct (truthy (isExpanded e)) eqn:Hexp; simpl.
  - (* the row was expanded: it collapses *)
    do 3 eexists. split; [reflexivity|]. simpl.
    split; [apply list_lookup_insert_eq; exact Hlt|]. simpl.
    split; [reflexivity|]. split; [reflexivity|]. split; [reflexivity|].
    split; [reflexivity|]. split; [discriminate|]. split; [auto|].
    intros content. unfold toggleExpand_then. simpl.
    rewrite list_lookup_insert_eq by exact Hlt. simpl.
    do 2 eexists. split.
    + apply list_lookup_insert_eq. rewrite length_insert. exact Hlt.
    + simpl. repeat split; reflexivity.
  - (* the row was collapsed: it expands and the loader is called *)
    do 3 eexists. split; [reflexivity|]. simpl.
    split; [apply list_lookup_insert_eq; exact Hlt|]. simpl.
    split; [reflexivity|]. split; [reflexivity|]. split; [reflexivity|].
    split; [reflexivity|]. split; [|split; [discriminate|]].
    + intros _. split; [reflexivity|]. split; [apply loaderCalls_snoc | reflexivity].
    + intros content. unfold toggleExpand_then. simpl.
      rewrite list_lookup_insert_eq by exact Hlt. simpl.
      do 2 eexists. split.
      * apply list_lookup_insert_eq. rewrite length_insert. exact Hlt.
      * simpl. repeat split; reflexivity.
Qed.

Lemma toggleExpand_loader_witness :
  exists g',
    toggleExpand 0 sampleGrid = Ok g' /\
    loaderCalls 0 (calls g') = 1%nat.
Proof.
  destruct (toggleExpand_loader sampleGrid 0
              (mkRow [mkCell "a" "name"] (Some 0%nat) (Some false) (Some sampleLoader) None)
              sampleLoader 2%nat eq_refl eq_refl eq_refl)
    as (g' & row' & e' & Hrun & _ & _ & _ & _ & _ & Hexpand & _).
  exists g'. split; [exact Hrun|].
  destruct (Hexpand eq_refl) as (_ & Hcount & _). exact Hcount.
Defined.

(** C3, as stated, fails: expand row 0 of [sampleGrid], let the fetch
    complete, collapse the row and expand it again.  The loader has then
    been called twice. *)
Lemma reexpand_calls_loader_again :
  exists g1 g3 g4,
    toggleExpand 0 sampleGrid = Ok g1 /\
    toggleExpand 0 (toggleExpand_then 0 (Some "details") g1) = Ok g3 /\
    toggleExpand 0 g3 = Ok g4 /\
    loaderCalls 0 (calls g1) = 1%nat /\
    loaderCalls 0 (calls g3) = 1%nat /\
    loaderCalls 0 (calls g4) = 2%nat /\
    ~ (loaderCalls 0 (calls g4) = loaderCalls 0 (calls g3)).
Proof.
  do 3 eexists. split; [reflexivity|]. split; [reflexivity|]. split; [reflexivity|].
  repeat split; try reflexivity. vm_compute. discriminate.
Qed.

(** ** Pagination *)

Lemma getTotalPages_ceil (totalItems pageSize : Z) :
  0 < pageSize ->
  (getTotalPages totalItems pageSize - 1) * pageSize < totalItems
  <= getTotalPages totalItems pageSize * pageSize.
Proof.
  intros Hpos. unfold getTotalPages.
  pose proof (Z.div_mod (totalItems + pageSize - 1) pageSize ltac:(lia)) as Hdm.
  pose proof (Z.mod_pos_bound (totalItems + pageSize - 1) pageSize Hpos) as Hr.
  nia.
Qed.

Lemma getFirstItemIndex_eq (page pageSize : Z) :
  getFirstItemIndex page pageSize = (page - 1) * pageSize + 1.
Proof. unfold getFirstItemIndex. lia. Qed.

Lemma derivedFields_intro (page pageSize totalItems : Z) ps cf :
  0 < pageSize ->
  derivedFields
    {| currentPage := page;
       pageSize := pageSize;
       totalItems := totalItems;
       firstItem := getFirstItemIndex page pageSize;
       lastItem := getLastItemIndex pageSize totalItems (getFirstItemIndex page pageSize);
       totalPages := getTotalPages totalItems pageSize;
       pageSizes := ps;
       compactFooter := cf |}.
Proof.
  intros Hpos. unfold derivedFields. simpl.
  split; [apply getFirstItemIndex_eq|]. split; [reflexivity|].
  apply getTotalPages_ceil, Hpos.
Qed.

Lemma derivedFields_totalPages (p : DataGridPaginationState) :
  0 < pageSize p -> derivedFields p ->
  (1 <= totalPages p <-> 1 <= totalItems p) /\ (totalItems p = 0 -> totalPages p = 0).
Proof.
  unfold derivedFields. intros Hpos (_ & _ & Hlo & Hhi).
  assert (Hpages : 1 <= totalPages p <-> 1 <= totalItems p).
  { split; intros H.
    - assert (0 <= (totalPages p - 1) * pageSize p) by (apply Z.mul_nonneg_nonneg; lia).
      lia.
    - destruct (Z_lt_le_dec (totalPages p) 1) as [Hlt|]; [|assumption].
      assert (totalPages p * pageSize p <= 0) by (apply Z.mul_nonpos_nonneg; lia).
      lia. }
  split; [exact Hpages|]. intros Hzero.
  destruct (Z_lt_le_dec (totalPages p) 0) as [Hneg|Hnn]; [|lia].
  assert (totalPages p * pageSize p < 0) by (apply Z.mul_neg_pos; lia). lia.
Qed.

Lemma derivedFields_ceilDiv (p : DataGridPaginationState) :
  0 < pageSize p -> derivedFields p ->
  totalPages p = ceilDiv (totalItems p) (pageSize p).
Proof.
  unfold derivedFields, ceilDiv. intros Hpos (_ & _ & Hlo & Hhi).
  rewrite <- (Z.div_unique_pos (- totalItems p) (pageSize p) (- totalPages p)
                (totalPages p * pageSize p - totalItems p)); lia.
Qed.

Lemma paginationOk_constructor (g : DataGrid) (pp : PaginationProps.t) :
  props_pagination g = Some pp ->
  0 < default 10 (PaginationProps.pageSize pp) ->
  paginationOk (constructor_pagination g).
Proof.
  intros Hpp Hpos. unfold constructor_pagination, paginationOk. cbv zeta.
  simpl. rewrite Hpp. simpl. split; [exact Hpos|].
  apply derivedFields_intro, Hpos.
Qed.

Lemma paginationOk_updateRows (g : DataGrid) rows totalItems' :
  paginationOk g -> paginationOk (updateRows rows totalItems' g).
Proof.
  unfold paginationOk, updateRows. cbv zeta.
  destruct (pagination g) as [p|] eqn:Hp; [|destruct totalItems'; simpl; rewrite ?Hp; auto].
  intros [Hpos Hder]. destruct totalItems' as [ti|]; simpl.
  - destruct (pageIndexRef g); simpl; (split; [exact Hpos|]);
      apply derivedFields_intro, Hpos.
  - rewrite Hp. auto.
Qed.

Lemma paginationOk_getPage (g : DataGrid) (pageIndex pageSize' : Z) :
  0 < pageSize' -> paginationOk g -> paginationOk (getPage pageIndex pageSize' g).
Proof.
  intros Hpos. unfold paginationOk, getPage.
  destruct (pagination g) as [p|] eqn:Hp; [|simpl; rewrite Hp; auto].
  intros Hok. destruct (props_pagination g) as [pp|]; [|simpl; rewrite Hp; exact Hok].
  cbv zeta. simpl.
  destruct (PaginationProps.getPageData pp); destruct (pageIndexRef g); simpl;
    rewrite ?Hp; try exact Hok; (split; [exact Hpos|]); apply derivedFields_intro, Hpos.
Qed.

Lemma pagination_getPage_then (g : DataGrid) data :
  pagination (getPage_then data g) = pagination g.
Proof. reflexivity. Qed.

(** C1, as the code has it.  After construction, after every [updateRows]
    and after every [getPage] (before and after the page data arrive) the
    derived fields are up to date: [firstItem = (currentPage-1)*pageSize + 1],
    [lastItem = min(firstItem+pageSize-1, totalItems)] and
    [totalPages = ceil(totalItems/pageSize)], without a minimum: [totalPages]
    is at least 1 exactly when there is at least one item, and 0 when there
    is none. *)
Theorem pagination_derivedFields :
  (forall g pp,
      props_pagination g = Some pp ->
      0 < default 10 (PaginationProps.pageSize pp) ->
      paginationOk (constructor_pagination g)) /\
  (forall g, paginationOk g ->
      (forall rows totalItems', paginationOk (updateRows rows totalItems' g)) /\
      (forall pageIndex pageSize', 0 < pageSize' ->
          paginationOk (getPage pageIndex pageSize' g) /\
          forall data, paginationOk (getPage_then data (getPage pageIndex pageSize' g)))) /\
  (forall p, 0 < pageSize p -> derivedFields p ->
      totalPages p = ceilDiv (totalItems p) (pageSize p) /\
      (1 <= totalPages p <-> 1 <= totalItems p) /\
      (totalItems p = 0 -> totalPages p = 0)).
Proof.
  split; [exact paginationOk_constructor|]. split.
  - intros g Hok. split.
    + intros rows ti. apply paginationOk_updateRows, Hok.
    + intros pageIndex pageSize' Hpos.
      pose proof (paginationOk_getPage g pageIndex pageSize' Hpos Hok) as Hok'.
      split; [exact Hok'|]. intros data. unfold paginationOk.
      rewrite pagination_getPage_then. exact Hok'.
  - intros p Hpos Hder. split; [apply derivedFields_ceilDiv; assumption|].
    apply derivedFields_totalPages; assumption.
Qed.

Lemma pagination_derivedFields_witness :
  paginationOk pagedGrid /\
  paginationOk (updateRows sampleRows (Some 7) pagedGrid) /\
  paginationOk (getPage_then sampleRows (getPage 3 20 pagedGrid)).
Proof.
  destruct pagination_derivedFields as (Hinit & Hstep & _).
  assert (Hok : paginationOk pagedGrid).
  { apply (Hinit _ pagedProps); [reflexivity | simpl; lia]. }
  split; [exact Hok|].
  destruct (Hstep pagedGrid Hok) as [Hrows Hpage].
  split; [apply Hrows|].
  apply (Hpage 3 20); lia.
Defined.

(** C1, as stated, fails: a grid constructed with [totalItems = 0] has
    [totalPages = 0], not 1. *)
Lemma totalPages_zero_without_items :
  exists p,
    pagination emptyGrid = Some p /\
    totalItems p = 0 /\
    totalPages p = 0 /\
    ~ derivedFields_spec p.
Proof.
  eexists. split; [reflexivity|]. split; [reflexivity|]. split; [reflexivity|].
  unfold derivedFields_spec. intros (_ & _ & _ & H).
  vm_compute in H. exact (H eq_refl).
Qed.

(** The pagination controls, which are the callers of [getPage], are shown
    only when [totalPages] is at least 1, also for another page size. *)
Lemma renderPaginationFooter_totalPages (g : DataGrid) (p : DataGridPaginationState)
    (pageSize' : Z) :
  pagination g = Some p ->
  paginationOk g ->
  renderPaginationFooter g = true ->
  0 < pageSize' ->
  1 <= (if decide (pageSize p <> pageSize') then getTotalPages (totalItems p) pageSize'
        else totalPages p).
Proof.
  unfold paginationOk, renderPaginationFooter. intros Hp. rewrite Hp.
  intros [Hpos Hder] Hfooter Hpos'.
  apply andb_prop in Hfooter as [Hfooter Hge]. apply andb_prop in Hfooter as [Hti _].
  apply Z.leb_le in Hge. apply negb_true_iff, Z.eqb_neq in Hti.
  assert (Hitems : 1 <= totalItems p) by lia.
  case_decide.
  - pose proof (getTotalPages_ceil (totalItems p) pageSize' Hpos') as [_ Hhi].
    destruct (Z_lt_le_dec (getTotalPages (totalItems p) pageSize') 1) as [Hlt|]; [|assumption].
    assert (getTotalPages (totalItems p) pageSize' * pageSize' <= 0)
      by (apply Z.mul_nonpos_nonneg; lia).
    lia.
  - apply (derivedFields_totalPages p Hpos Hder). exact Hitems.
Qed.

(** C2. [getPage] brings the requested page into [[1, totalPages]], where
    [totalPages] is recomputed for the requested page size when that differs
    from the current one: the input box, the call of [getPageData] and
    [currentPage] all get [max 1 (min pageIndex totalPages)].  Page 5 of 3
    becomes page 3, page 0 and negative pages become page 1.  [getPage] is
    private; its callers are the handlers of the pagination controls, so the
    grid is one that shows them, with its pagination state up to date, and
    the requested page size is positive. *)
Theorem getPage_clamps (g : DataGrid) (p : DataGridPaginationState)
    (pp : PaginationProps.t) (pageIndex pageSize' : Z) :
  pagination g = Some p ->
  props_pagination g = Some pp ->
  paginationOk g ->
  renderPaginationFooter g = true ->
  0 < pageSize' ->
  let totalPages' :=
    if decide (pageSize p <> pageSize') then getTotalPages (totalItems p) pageSize'
    else totalPages p in
  let page := Z.max 1 (Z.min pageIndex totalPages') in
  resolvesTo g (getPage pageIndex pageSize' g) pageSize' page /\
  1 <= page <= totalPages' /\
  (pageIndex = 5 -> totalPages' = 3 -> page = 3) /\
  (pageIndex <= 0 -> page = 1).
Proof.
  intros Hp Hpp Hok Hfooter Hpos' totalPages' page.
  pose proof (renderPaginationFooter_totalPages g p pageSize' Hp Hok Hfooter Hpos')
    as Htp.
  fold totalPages' in Htp.
  assert (Hpage : (if (if (totalPages' <? pageIndex) && negb (totalPages' =? 0)
                       then totalPages' else pageIndex) <? 1
                   then 1
                   else if (totalPages' <? pageIndex) && negb (totalPages' =? 0)
                        then totalPages' else pageIndex) = page).
  { subst page.
    destruct (Z.ltb_spec totalPages' pageIndex); destruct (Z.eqb_spec totalPages' 0);
      simpl; try lia;
      match goal with |- context [?a <? 1] => destruct (Z.ltb_spec a 1) end; lia. }
  split; [|subst page; repeat split; lia].
  unfold resolvesTo, getPage. rewrite Hp, Hpp. cbv zeta.
  fold totalPages'. rewrite Hpage. split.
  - intros v Hv. simpl. rewrite Hv.
    destruct (PaginationProps.getPageData pp); reflexivity.
  - intros pp' cb Hpp' Hcb. injection Hpp' as <-. rewrite Hcb.
    destruct (pageIndexRef (showLoader g)); split; reflexivity.
Qed.

Lemma getPage_clamps_witness :
  resolvesTo pagedGrid (getPage 5 10 pagedGrid) 10 3 /\
  resolvesTo pagedGrid (getPage 0 10 pagedGrid) 10 1 /\
  resolvesTo pagedGrid (getPage (-4) 20 pagedGrid) 20 1 /\
  resolvesTo pagedGrid (getPage 9 20 pagedGrid) 20 2.
Proof.
  assert (Hp : pagination pagedGrid =
               Some (mkPagination 1 10 25 1 10 3 (Some [10; 20]) (Some false)))
    by reflexivity.
  assert (Hok : paginationOk pagedGrid)
    by (apply (paginationOk_constructor _ pagedProps); [reflexivity | simpl; lia]).
  split; [|split; [|split]].
  - apply (getPage_clamps pagedGrid _ pagedProps 5 10 Hp eq_refl Hok eq_refl). lia.
  - apply (getPage_clamps pagedGrid _ pagedProps 0 10 Hp eq_refl Hok eq_refl). lia.
  - apply (getPage_clamps pagedGrid _ pagedProps (-4) 20 Hp eq_refl Hok eq_refl). lia.
  - apply (getPage_clamps pagedGrid _ pagedProps 9 20 Hp eq_refl Hok eq_refl). lia.
Defined.

(** ** Pagination without [getPageData] *)

(** Without [getPageData], [getPage] still switches the loading spinner on
    and rewrites the input box; nothing switches the spinner off again, as
    no call is made whose completion would. *)
Lemma getPage_no_getPageData (g : DataGrid) (p : DataGridPaginationState)
    (pp : PaginationProps.t) (pageIndex pageSize' : Z) :
  pagination g = Some p ->
  props_pagination g = Some pp ->
  PaginationProps.getPageData pp = None ->
  isLoading (getPage pageIndex pageSize' g) = true /\
  calls (getPage pageIndex pageSize' g) = calls g /\
  pagination (getPage pageIndex pageSize' g) = Some p /\
  allRows (getPage pageIndex pageSize' g) = allRows g.
Proof.
  intros Hp Hpp Hnone. unfold getPage. rewrite Hp, Hpp, Hnone. cbv zeta.
  destruct (pageIndexRef (showLoader g)); simpl; rewrite ?Hp; repeat split; reflexivity.
Qed.

(** C4 (the code differs).  On [pagedGrid_noLoader], whose pagination has no
    [getPageData], [getPage 2 10] turns the loading flag on and changes the
    text of the input box from "1" to "2"; pagination state and rows stay,
    and no callback is called. *)
Theorem getPage_no_getPageData_shows_loader :
  let g := pagedGrid_noLoader in
  let g' := getPage 2 10 g in
  isLoading g = false /\ isLoading g' = true /\
  pageIndexRef g = Some "1" /\ pageIndexRef g' = Some "2" /\
  pagination g' = pagination g /\ allRows g' = allRows g /\ calls g' = calls g /\
  g' <> g.
Proof.
  cbv zeta. repeat split; try reflexivity.
  intros Heq. apply (f_equal isLoading) in Heq. vm_compute in Heq. discriminate.
Qed.

(** ** The page-index input box *)

(** [isNaN] is consulted only for a truthy [pageIndex], and [NaN] is falsy:
    text that does not parse leaves the grid, the input box included, as it
    is. *)
Lemma handlePageChange_NaN (g : DataGrid) (p : DataGridPaginationState) (v : string) :
  pagination g = Some p ->
  pageIndexRef g = Some v ->
  parseInt v = NaN ->
  handlePageChange g = Ok g.
Proof.
  intros Hp Hv Hnan. unfold handlePageChange. rewrite Hp, Hv. simpl.
  rewrite Hnan. reflexivity.
Qed.

(** Text that parses to a number other than 0 is handed to [getPage] with
    the current page size. *)
Lemma handlePageChange_number (g : DataGrid) (p : DataGridPaginationState)
    (v : string) (n : Z) :
  pagination g = Some p ->
  pageIndexRef g = Some v ->
  parseInt v = Num n ->
  n <> 0 ->
  handlePageChange g = Ok (getPage n (pageSize p) g).
Proof.
  intros Hp Hv Hnum Hnz. unfold handlePageChange. rewrite Hp, Hv. simpl.
  rewrite Hnum. simpl. rewrite (proj2 (Z.eqb_neq n 0) Hnz). reflexivity.
Qed.

(** C5 (the code differs).  With "abc" typed into the input box of
    [pagedGrid], whose current page is 1, [handlePageChange] returns the grid
    unchanged: the box still reads "abc", not "1".  With "0" typed it does
    the same, where [getPage 0] would have put "1" in the box. *)
Theorem handlePageChange_keeps_text :
  let g := with_pageIndexRef (Some "abc") pagedGrid in
  let g0 := with_pageIndexRef (Some "0") pagedGrid in
  parseInt "abc" = NaN /\
  currentPage <$> pagination g = Some 1 /\
  handlePageChange g = Ok g /\
  pageIndexRef g = Some "abc" /\
  parseInt "0" = Num 0 /\
  handlePageChange g0 = Ok g0 /\
  pageIndexRef (getPage 0 10 g0) = Some "1".
Proof.
  cbv zeta. repeat split; reflexivity.
Qed.

(** * Further properties *)

(** ** Pagination arithmetic *)

(** [totalPages] is determined by the bounds kept in [derivedFields]. *)
Lemma getTotalPages_unique (totalItems pageSize pages : Z) :
  0 < pageSize ->
  (pages - 1) * pageSize < totalItems <= pages * pageSize ->
  pages = getTotalPages totalItems pageSize.
Proof.
  intros Hpos [Hlo Hhi]. unfold getTotalPages.
  apply (Z.div_unique_pos _ _ _ (totalItems + pageSize - 1 - pageSize * pages)); lia.
Qed.

(** In a grid whose pagination is up to date, the [totalPages] that [getPage]
    compares with is the one of the requested page size. *)
Lemma getPage_totalPages (p : DataGridPaginationState) (pageSize' : Z) :
  0 < pageSize p -> derivedFields p ->
  (if decide (pageSize p <> pageSize') then getTotalPages (totalItems p) pageSize'
   else totalPages p) = getTotalPages (totalItems p) pageSize'.
Proof.
  intros Hpos (_ & _ & Hb). case_decide as Hne; [reflexivity|].
  assert (pageSize p = pageSize') as <- by (destruct (decide (pageSize p = pageSize')); tauto).
  apply getTotalPages_unique; assumption.
Qed.

Lemma getTotalPages_pos (totalItems pageSize : Z) :
  0 < pageSize -> 1 <= totalItems -> 1 <= getTotalPages totalItems pageSize.
Proof.
  intros Hpos Hti. destruct (getTotalPages_ceil totalItems pageSize Hpos) as [_ Hhi].
  destruct (Z_lt_le_dec (getTotalPages totalItems pageSize) 1) as [Hlt|]; [|assumption].
  assert (getTotalPages totalItems pageSize * pageSize <= 0)
    by (apply Z.mul_nonpos_nonneg; lia).
  lia.
Qed.

(** What [getPage] leaves behind when a page loader is configured and there
    is at least one item. *)
Lemma getPage_loader_state (g : DataGrid) (p : DataGridPaginationState)
    (pp : PaginationProps.t) (cb : callback) (pageIndex pageSize' : Z) :
  pagination g = Some p ->
  props_pagination g = Some pp ->
  PaginationProps.getPageData pp = Some cb ->
  0 < pageSize p -> derivedFields p ->
  0 < pageSize' ->
  1 <= totalItems p ->
  let pages := getTotalPages (totalItems p) pageSize' in
  let page := Z.max 1 (Z.min pageIndex pages) in
  pagination (getPage pageIndex pageSize' g) =
    Some (mkPagination page pageSize' (totalItems p)
            (getFirstItemIndex page pageSize')
            (getLastItemIndex pageSize' (totalItems p) (getFirstItemIndex page pageSize'))
            pages (pageSizes p) (compactFooter p)) /\
  calls (getPage pageIndex pageSize' g) =
    (calls g ++ [CallGetPageData page pageSize'])%list /\
  pageIndexRef (getPage pageIndex pageSize' g) =
    match pageIndexRef g with Some _ => Some (pretty page) | None => None end /\
  isLoading (getPage pageIndex pageSize' g) = true /\
  allRows (getPage pageIndex pageSize' g) = allRows g /\
  props_pagination (getPage pageIndex pageSize' g) = Some pp.
Proof.
  intros Hp Hpp Hcb Hpos Hder Hpos' Hti pages page.
  pose proof (getTotalPages_pos (totalItems p) pageSize' Hpos' Hti) as Hpages.
  fold pages in Hpages.
  unfold getPage. rewrite Hp, Hpp. cbv zeta.
  rewrite (getPage_totalPages p pageSize' Hpos Hder). fold pages. rewrite Hcb.
  assert (Hpage : (if (if (pages <? pageIndex) && negb (pages =? 0)
                       then pages else pageIndex) <? 1
                   then 1
                   else if (pages <? pageIndex) && negb (pages =? 0)
                        then pages else pageIndex) = page).
  { subst page.
    destruct (Z.ltb_spec pages pageIndex); destruct (Z.eqb_spec pages 0);
      simpl; try lia;
      match goal with |- context [?a <? 1] => destruct (Z.ltb_spec a 1) end; lia. }
  rewrite Hpage. change (pageIndexRef (showLoader g)) with (pageIndexRef g).
  destruct (pageIndexRef g) eqn:Hv; simpl; rewrite ?Hv, ?Hpp; repeat split; reflexivity.
Qed.

(** The page window: bounds of [firstItem] and [lastItem] for a page inside
    [[1, pages]]. *)
Lemma page_window (page pageSize totalItems : Z) :
  0 < pageSize ->
  1 <= page <= getTotalPages totalItems pageSize ->
  let firstItem := getFirstItemIndex page pageSize in
  let lastItem := getLastItemIndex pageSize totalItems firstItem in
  1 <= firstItem <= lastItem /\ lastItem <= totalItems /\
  lastItem - firstItem + 1 <= pageSize /\
  (page < getTotalPages totalItems pageSize -> lastItem - firstItem + 1 = pageSize) /\
  (page = getTotalPages totalItems pageSize -> lastItem = totalItems).
Proof.
  intros Hpos [Hlo Hhi]. cbv zeta. unfold getLastItemIndex.
  rewrite getFirstItemIndex_eq.
  destruct (getTotalPages_ceil totalItems pageSize Hpos) as [Hclo Hchi].
  set (pages := getTotalPages totalItems pageSize) in *.
  assert (H1 : 0 <= (page - 1) * pageSize) by (apply Z.mul_nonneg_nonneg; lia).
  assert (H2 : (page - 1) * pageSize <= (pages - 1) * pageSize)
    by (apply Z.mul_le_mono_nonneg_r; lia).
  assert (H3 : page < pages -> page * pageSize <= (pages - 1) * pageSize)
    by (intros; apply Z.mul_le_mono_nonneg_r; lia).
  assert (H4 : (page - 1) * pageSize + pageSize = page * pageSize) by ring.
  repeat split; lia.
Qed.

Lemma paginationOk_Some (g : DataGrid) (p : DataGridPaginationState) :
  pagination g = Some p -> paginationOk g -> 0 < pageSize p /\ derivedFields p.
Proof. unfold paginationOk. intros ->. auto. Qed.

(** An up-to-date pagination state is determined by its current page, page
    size and item count (and the two display options). *)
Lemma derivedFields_eq (p : DataGridPaginationState) :
  0 < pageSize p -> derivedFields p ->
  p = mkPagination (currentPage p) (pageSize p) (totalItems p)
        (getFirstItemIndex (currentPage p) (pageSize p))
        (getLastItemIndex (pageSize p) (totalItems p)
           (getFirstItemIndex (currentPage p) (pageSize p)))
        (getTotalPages (totalItems p) (pageSize p)) (pageSizes p) (compactFooter p).
Proof.
  intros Hpos (Hfirst & Hlast & Hb).
  pose proof (getTotalPages_unique _ _ _ Hpos Hb) as Hpages.
  destruct p as [cp ps ti fi la tp pss cf]. simpl in *.
  unfold getLastItemIndex. rewrite getFirstItemIndex_eq, <- Hfirst, <- Hlast, <- Hpages.
  reflexivity.
Qed.

Lemma derivedFields_items (p : DataGridPaginationState) :
  0 < pageSize p -> derivedFields p -> 1 <= totalPages p -> 1 <= totalItems p.
Proof. intros Hpos Hder. apply (derivedFields_totalPages p Hpos Hder). Qed.

Lemma paginationOk_pagedGrid : paginationOk pagedGrid.
Proof. apply (paginationOk_constructor _ pagedProps); [reflexivity | simpl; lia]. Qed.

(** X1. In a grid with items and a page loader, whatever page and (positive)
    page size are requested, [getPage] leaves a current page inside
    [[1, totalPages]] and a window [firstItem..lastItem] that is not empty,
    lies inside the items and holds at most [pageSize] items: exactly
    [pageSize] before the last page, and up to the last item on it. *)
Theorem getPage_page_window (g : DataGrid) (p : DataGridPaginationState)
    (pp : PaginationProps.t) (cb : callback) (pageIndex pageSize' : Z) :
  pagination g = Some p ->
  props_pagination g = Some pp ->
  PaginationProps.getPageData pp = Some cb ->
  paginationOk g ->
  0 < pageSize' ->
  1 <= totalItems p ->
  exists p',
    pagination (getPage pageIndex pageSize' g) = Some p' /\
    pageSize p' = pageSize' /\ totalItems p' = totalItems p /\
    1 <= currentPage p' <= totalPages p' /\
    1 <= firstItem p' <= lastItem p' /\ lastItem p' <= totalItems p' /\
    lastItem p' - firstItem p' + 1 <= pageSize' /\
    (currentPage p' < totalPages p' -> lastItem p' - firstItem p' + 1 = pageSize') /\
    (currentPage p' = totalPages p' -> lastItem p' = totalItems p').
Proof.
  intros Hp Hpp Hcb Hok Hpos' Hti.
  destruct (paginationOk_Some g p Hp Hok) as [Hpos Hder].
  destruct (getPage_loader_state g p pp cb pageIndex pageSize' Hp Hpp Hcb Hpos Hder Hpos' Hti)
    as (Hstate & _).
  pose proof (getTotalPages_pos (totalItems p) pageSize' Hpos' Hti) as Hpages.
  eexists. split; [exact Hstate|]. simpl.
  split; [reflexivity|]. split; [reflexivity|].
  assert (Hin : 1 <= Z.max 1 (Z.min pageIndex (getTotalPages (totalItems p) pageSize'))
                <= getTotalPages (totalItems p) pageSize') by lia.
  split; [exact Hin|].
  pose proof (page_window _ pageSize' (totalItems p) Hpos' Hin) as Hw. cbv zeta in Hw.
  tauto.
Qed.

Lemma getPage_page_window_witness :
  exists p',
    pagination (getPage 7 10 pagedGrid) = Some p' /\
    pageSize p' = 10 /\ totalItems p' = 25 /\
    1 <= currentPage p' <= totalPages p' /\
    1 <= firstItem p' <= lastItem p' /\ lastItem p' <= totalItems p' /\
    lastItem p' - firstItem p' + 1 <= 10 /\
    (currentPage p' < totalPages p' -> lastItem p' - firstItem p' + 1 = 10) /\
    (currentPage p' = totalPages p' -> lastItem p' = totalItems p').
Proof.
  apply (getPage_page_window pagedGrid
           (mkPagination 1 10 25 1 10 3 (Some [10; 20]) (Some false))
           pagedProps 3%nat 7 10);
    try reflexivity; try exact paginationOk_pagedGrid; simpl; lia.
Defined.

(** X2. [updateRows] with a new item count keeps the current page when it
    still exists and goes back to page 1 when it lies beyond the new last
    page; with at least one item the current page ends inside
    [[1, totalPages]].  The rows are the new ones with their ids
    reassigned, and [selectAll] is recomputed from them. *)
Theorem updateRows_currentPage (g : DataGrid) (p : DataGridPaginationState)
    (rows : list DataGridRow) (totalItems' : Z) :
  pagination g = Some p ->
  0 < pageSize p ->
  exists p',
    pagination (updateRows rows (Some totalItems') g) = Some p' /\
    totalItems p' = totalItems' /\ pageSize p' = pageSize p /\
    totalPages p' = getTotalPages totalItems' (pageSize p) /\
    (currentPage p <= totalPages p' -> currentPage p' = currentPage p) /\
    (totalPages p' < currentPage p -> currentPage p' = 1) /\
    (1 <= currentPage p -> 1 <= totalItems' -> 1 <= currentPage p' <= totalPages p') /\
    allRows (updateRows rows (Some totalItems') g) = updateRowIDs rows /\
    selectAll (updateRows rows (Some totalItems') g) = isAllRowsSelected (updateRowIDs rows).
Proof.
  intros Hp Hpos. unfold updateRows. rewrite Hp. cbv zeta.
  pose proof (getTotalPages_pos totalItems' (pageSize p) Hpos) as Hpages.
  set (pages := getTotalPages totalItems' (pageSize p)) in *.
  eexists. split.
  - destruct (pageIndexRef g); reflexivity.
  - simpl. split; [reflexivity|]. split; [reflexivity|]. split; [reflexivity|].
    destruct (Z.ltb_spec pages (currentPage p)).
    + repeat split; try lia; destruct (pageIndexRef g); reflexivity.
    + repeat split; try lia; destruct (pageIndexRef g); reflexivity.
Qed.

Lemma updateRows_currentPage_witness :
  exists p',
    pagination (updateRows sampleRows (Some 12) (getPage 3 10 pagedGrid)) = Some p' /\
    currentPage p' = 1 /\ totalPages p' = 2 /\ lastItem p' = 10.
Proof.
  destruct (updateRows_currentPage (getPage 3 10 pagedGrid)
              (mkPagination 3 10 25 21 25 3 (Some [10; 20]) (Some false))
              sampleRows 12 eq_refl ltac:(simpl; lia))
    as (p' & Hrun & _ & _ & Hpages & _ & Hreset & _).
  exists p'. split; [exact Hrun|].
  assert (Hcur : currentPage p' = 1).
  { apply Hreset. rewrite Hpages. vm_compute. reflexivity. }
  split; [exact Hcur|]. split; [exact Hpages|].
  clear - Hrun. vm_compute in Hrun. injection Hrun as <-. reflexivity.
Defined.

(** ** Page buttons *)

(** X3. Before the last page, "next" followed by "previous" brings the
    pagination state back to what it was; the page loader has been asked for
    the next page and then for the original one. *)
Theorem gotoNextPage_gotoPreviousPage (g : DataGrid) (p : DataGridPaginationState)
    (pp : PaginationProps.t) (cb : callback) :
  pagination g = Some p ->
  props_pagination g = Some pp ->
  PaginationProps.getPageData pp = Some cb ->
  paginationOk g ->
  1 <= currentPage p < totalPages p ->
  exists g1 g2,
    gotoNextPage g = Ok g1 /\
    gotoPreviousPage g1 = Ok g2 /\
    currentPage <$> pagination g1 = Some (currentPage p + 1) /\
    pagination g2 = Some p /\
    calls g2 = (calls g ++ [CallGetPageData (currentPage p + 1) (pageSize p);
                            CallGetPageData (currentPage p) (pageSize p)])%list.
Proof.
  intros Hp Hpp Hcb Hok Hcur.
  destruct (paginationOk_Some g p Hp Hok) as [Hpos Hder].
  assert (Hti : 1 <= totalItems p) by (apply derivedFields_items; [assumption..|lia]).
  pose proof (derivedFields_eq p Hpos Hder) as Heq.
  assert (Hpages : totalPages p = getTotalPages (totalItems p) (pageSize p))
    by (rewrite Heq at 1; reflexivity).
  unfold gotoNextPage. rewrite Hp. cbv zeta. rewrite Hpages in Hcur |- *.
  set (pages := getTotalPages (totalItems p) (pageSize p)) in *.
  destruct (getPage_loader_state g p pp cb
              (if pages <? currentPage p + 1 then pages else currentPage p + 1)
              (pageSize p) Hp Hpp Hcb Hpos Hder Hpos Hti)
    as (Hst1 & Hcalls1 & _ & _ & _ & Hpp1).
  fold pages in Hst1, Hcalls1.
  set (g1 := getPage _ (pageSize p) g) in *.
  assert (Hnext : Z.max 1 (Z.min (if pages <? currentPage p + 1 then pages
                                  else currentPage p + 1) pages)
                  = currentPage p + 1).
  { destruct (Z.ltb_spec pages (currentPage p + 1)); lia. }
  rewrite Hnext in Hst1, Hcalls1.
  set (p1 := mkPagination (currentPage p + 1) _ _ _ _ _ _ _) in Hst1.
  assert (Hder1 : derivedFields p1) by (apply derivedFields_intro, Hpos).
  exists g1. eexists. split; [reflexivity|].
  unfold gotoPreviousPage. rewrite Hst1. cbv zeta. split; [reflexivity|].
  split; [reflexivity|].
  destruct (getPage_loader_state g1 p1 pp cb
              (if currentPage p1 - 1 <? 1 then 1 else currentPage p1 - 1)
              (pageSize p1) Hst1 Hpp1 Hcb Hpos Hder1 Hpos Hti)
    as (Hst2 & Hcalls2 & _).
  change (pageSize p1) with (pageSize p) in *.
  change (totalItems p1) with (totalItems p) in *.
  change (currentPage p1) with (currentPage p + 1) in *.
  change (pageSizes p1) with (pageSizes p) in *.
  change (compactFooter p1) with (compactFooter p) in *.
  fold pages in Hst2, Hcalls2.
  assert (Hprev : Z.max 1 (Z.min (if currentPage p + 1 - 1 <? 1 then 1
                                  else currentPage p + 1 - 1) pages)
                  = currentPage p).
  { destruct (Z.ltb_spec (currentPage p + 1 - 1) 1); lia. }
  rewrite Hprev in Hst2, Hcalls2.
  split.
  - rewrite Hst2. f_equal. symmetry. exact Heq.
  - rewrite Hcalls2, Hcalls1, <- app_assoc. reflexivity.
Qed.

Lemma gotoNextPage_gotoPreviousPage_witness :
  exists g1 g2,
    gotoNextPage pagedGrid = Ok g1 /\
    gotoPreviousPage g1 = Ok g2 /\
    currentPage <$> pagination g1 = Some 2 /\
    pagination g2 = pagination pagedGrid /\
    calls g2 = [CallGetPageData 2 10; CallGetPageData 1 10].
Proof.
  apply (gotoNextPage_gotoPreviousPage pagedGrid
           (mkPagination 1 10 25 1 10 3 (Some [10; 20]) (Some false))
           pagedProps 3%nat);
    try reflexivity; try exact paginationOk_pagedGrid; simpl; lia.
Defined.

(** X4. In a grid with items and a page loader, "last" goes to page
    [totalPages], whose window ends at the last item, and "first" goes to
    page 1, whose window starts at item 1. *)
Theorem gotoLastPage_gotoFirstPage (g : DataGrid) (p : DataGridPaginationState)
    (pp : PaginationProps.t) (cb : callback) :
  pagination g = Some p ->
  props_pagination g = Some pp ->
  PaginationProps.getPageData pp = Some cb ->
  paginationOk g ->
  1 <= totalItems p ->
  (exists g' p',
      gotoLastPage g = Ok g' /\ pagination g' = Some p' /\
      currentPage p' = totalPages p /\ totalPages p' = totalPages p /\
      lastItem p' = totalItems p /\
      calls g' = (calls g ++ [CallGetPageData (totalPages p) (pageSize p)])%list) /\
  (exists g' p',
      gotoFirstPage g = Ok g' /\ pagination g' = Some p' /\
      currentPage p' = 1 /\ firstItem p' = 1 /\
      lastItem p' = Z.min (pageSize p) (totalItems p) /\
      calls g' = (calls g ++ [CallGetPageData 1 (pageSize p)])%list).
Proof.
  intros Hp Hpp Hcb Hok Hti.
  destruct (paginationOk_Some g p Hp Hok) as [Hpos Hder].
  pose proof (derivedFields_eq p Hpos Hder) as Heq.
  assert (Hpages : totalPages p = getTotalPages (totalItems p) (pageSize p))
    by (rewrite Heq at 1; reflexivity).
  pose proof (getTotalPages_pos (totalItems p) (pageSize p) Hpos Hti) as Hge.
  split.
  - unfold gotoLastPage. rewrite Hp.
    destruct (getPage_loader_state g p pp cb (totalPages p) (pageSize p)
                Hp Hpp Hcb Hpos Hder Hpos Hti) as (Hst & Hcalls & _).
    rewrite <- Hpages in Hst, Hcalls.
    replace (Z.max 1 (Z.min (totalPages p) (totalPages p))) with (totalPages p)
      in Hst, Hcalls by lia.
    do 2 eexists. split; [reflexivity|]. split; [exact Hst|]. simpl.
    split; [reflexivity|]. split; [reflexivity|]. split; [|exact Hcalls].
    apply (page_window (totalPages p) (pageSize p) (totalItems p) Hpos); lia.
  - unfold gotoFirstPage. rewrite Hp.
    destruct (getPage_loader_state g p pp cb 1 (pageSize p)
                Hp Hpp Hcb Hpos Hder Hpos Hti) as (Hst & Hcalls & _).
    replace (Z.max 1 (Z.min 1 (getTotalPages (totalItems p) (pageSize p)))) with 1
      in Hst, Hcalls by lia.
    do 2 eexists. split; [reflexivity|]. split; [exact Hst|]. simpl.
    unfold getLastItemIndex, getFirstItemIndex.
    split; [reflexivity|]. split; [lia|]. split; [f_equal; lia | exact Hcalls].
Qed.

Lemma gotoLastPage_gotoFirstPage_witness :
  (exists g' p',
      gotoLastPage pagedGrid = Ok g' /\ pagination g' = Some p' /\
      currentPage p' = 3 /\ totalPages p' = 3 /\ lastItem p' = 25 /\
      calls g' = [CallGetPageData 3 10]) /\
  (exists g' p',
      gotoFirstPage pagedGrid = Ok g' /\ pagination g' = Some p' /\
      currentPage p' = 1 /\ firstItem p' = 1 /\ lastItem p' = 10 /\
      calls g' = [CallGetPageData 1 10]).
Proof.
  apply (gotoLastPage_gotoFirstPage pagedGrid
           (mkPagination 1 10 25 1 10 3 (Some [10; 20]) (Some false))
           pagedProps 3%nat);
    try reflexivity; try exact paginationOk_pagedGrid; simpl; lia.
Defined.

(** X5. On the last page "next", and on the first page "previous", leave the
    pagination state as it is, but still switch the loader on and ask the
    page loader for that same page again. *)
Theorem page_buttons_at_the_ends (g : DataGrid) (p : DataGridPaginationState)
    (pp : PaginationProps.t) (cb : callback) :
  pagination g = Some p ->
  props_pagination g = Some pp ->
  PaginationProps.getPageData pp = Some cb ->
  paginationOk g ->
  1 <= totalItems p ->
  (currentPage p = totalPages p ->
   exists g', gotoNextPage g = Ok g' /\ pagination g' = Some p /\ isLoading g' = true /\
              calls g' = (calls g ++ [CallGetPageData (currentPage p) (pageSize p)])%list) /\
  (currentPage p = 1 ->
   exists g', gotoPreviousPage g = Ok g' /\ pagination g' = Some p /\ isLoading g' = true /\
              calls g' = (calls g ++ [CallGetPageData (currentPage p) (pageSize p)])%list).
Proof.
  intros Hp Hpp Hcb Hok Hti.
  destruct (paginationOk_Some g p Hp Hok) as [Hpos Hder].
  pose proof (derivedFields_eq p Hpos Hder) as Heq.
  assert (Hpages : totalPages p = getTotalPages (totalItems p) (pageSize p))
    by (rewrite Heq at 1; reflexivity).
  pose proof (getTotalPages_pos (totalItems p) (pageSize p) Hpos Hti) as Hge.
  split; intros Hcur.
  - unfold gotoNextPage. rewrite Hp. cbv zeta.
    destruct (getPage_loader_state g p pp cb
                (if totalPages p <? currentPage p + 1 then totalPages p
                 else currentPage p + 1)
                (pageSize p) Hp Hpp Hcb Hpos Hder Hpos Hti)
      as (Hst & Hcalls & _ & Hload & _).
    assert (Hsame : Z.max 1 (Z.min (if totalPages p <? currentPage p + 1 then totalPages p
                                    else currentPage p + 1)
                                   (getTotalPages (totalItems p) (pageSize p)))
                    = currentPage p).
    { destruct (Z.ltb_spec (totalPages p) (currentPage p + 1)); lia. }
    rewrite Hsame in Hst, Hcalls.
    eexists. split; [reflexivity|]. split; [|split; [exact Hload | exact Hcalls]].
    rewrite Hst. f_equal. symmetry. exact Heq.
  - unfold gotoPreviousPage. rewrite Hp. cbv zeta.
    destruct (getPage_loader_state g p pp cb
                (if currentPage p - 1 <? 1 then 1 else currentPage p - 1)
                (pageSize p) Hp Hpp Hcb Hpos Hder Hpos Hti)
      as (Hst & Hcalls & _ & Hload & _).
    assert (Hsame : Z.max 1 (Z.min (if currentPage p - 1 <? 1 then 1
                                    else currentPage p - 1)
                                   (getTotalPages (totalItems p) (pageSize p)))
                    = currentPage p).
    { destruct (Z.ltb_spec (currentPage p - 1) 1); lia. }
    rewrite Hsame in Hst, Hcalls.
    eexists. split; [reflexivity|]. split; [|split; [exact Hload | exact Hcalls]].
    rewrite Hst. f_equal. symmetry. exact Heq.
Qed.

Lemma page_buttons_at_the_ends_witness :
  exists g',
    gotoPreviousPage pagedGrid = Ok g' /\ pagination g' = pagination pagedGrid /\
    isLoading g' = true /\ calls g' = [CallGetPageData 1 10].
Proof.
  refine (proj2 (page_buttons_at_the_ends pagedGrid
                   (mkPagination 1 10 25 1 10 3 (Some [10; 20]) (Some false))
                   pagedProps 3%nat _ _ _ _ _) _);
    try reflexivity; try exact paginationOk_pagedGrid; simpl; lia.
Defined.

(** ** The text of the page-index input box *)

Lemma radixDigit_pretty_N_char (d : N) :
  (d < 10)%N -> radixDigit 10 (pretty_N_char d) = Some (Z.of_N d).
Proof.
  intros Hd.
  assert (d = 0 \/ d = 1 \/ d = 2 \/ d = 3 \/ d = 4 \/ d = 5 \/ d = 6 \/ d = 7 \/ d = 8
          \/ d = 9)%N as Hcases by lia.
  repeat (destruct Hcases as [->|Hcases]; [reflexivity|]). subst. reflexivity.
Qed.

Lemma decimalDigits_pretty_N_go (x : N) (s : string) :
  decimalDigits s = true -> decimalDigits (pretty_N_go x s) = true.
Proof.
  revert s. induction (N.lt_wf_0 x) as [x _ IH]; intros s Hs.
  assert (x = 0 \/ 0 < x)%N as [->|Hpos] by lia.
  - rewrite pretty_N_go_0. exact Hs.
  - rewrite pretty_N_go_step by exact Hpos.
    apply IH; [apply N.div_lt; [exact Hpos | reflexivity]|].
    simpl. rewrite radixDigit_pretty_N_char by (apply N.mod_lt; discriminate).
    exact Hs.
Qed.

Lemma parseDigits_pretty_N_go (x : N) (s : string) :
  (0 < x)%N ->
  parseDigits 10 None (pretty_N_go x s) = parseDigits 10 (Some (Z.of_N x)) s.
Proof.
  revert s. induction (N.lt_wf_0 x) as [x _ IH]; intros s Hpos.
  rewrite pretty_N_go_step by exact Hpos.
  pose proof (N.div_mod x 10 ltac:(discriminate)) as Hdm.
  pose proof (N.mod_lt x 10 ltac:(discriminate)) as Hmod.
  assert (x `div` 10 = 0 \/ 0 < x `div` 10)%N as [Hz|Hq] by lia.
  - rewrite Hz, pretty_N_go_0. simpl.
    rewrite radixDigit_pretty_N_char by exact Hmod. f_equal. f_equal. lia.
  - rewrite IH; [|apply N.div_lt; [exact Hpos | reflexivity] | exact Hq].
    simpl. rewrite radixDigit_pretty_N_char by exact Hmod. f_equal. f_equal. lia.
Qed.

(** A decimal digit is no white space, no sign, and not the [x] of a
    hexadecimal prefix. *)
Lemma radixDigit_10_char (a : ascii) :
  is_Some (radixDigit 10 a) ->
  isWhiteSpace a = false /\ a <> "-"%char /\ a <> "+"%char /\
  a <> "x"%char /\ a <> "X"%char.
Proof.
  destruct a as [[] [] [] [] [] [] [] []]; vm_compute;
    intros [d Hd]; try discriminate Hd; repeat split; discriminate.
Qed.

(** On a string of decimal digits [parseInt] reads the digits in base 10. *)
Lemma parseInt_decimalDigits (s : string) :
  decimalDigits s = true ->
  parseInt s = match parseDigits 10 None s with Some n => Num n | None => NaN end /\
  parseInt (String "-" s) =
    match parseDigits 10 None s with Some n => Num (- n) | None => NaN end.
Proof.
  intros Hs.
  assert (Hradix : match s with
                   | String "0" (String "x" r) => (16, r)
                   | String "0" (String "X" r) => (16, r)
                   | _ => (10, s)
                   end = (10, s)).
  { destruct s as [|a [|b s']]; [reflexivity| |].
    - destruct a as [[] [] [] [] [] [] [] []]; reflexivity.
    - simpl in Hs. destruct (radixDigit 10 a); [|discriminate].
      destruct (radixDigit 10 b) as [d|] eqn:Hb; [|discriminate].
      destruct (radixDigit_10_char b ltac:(rewrite Hb; eexists; reflexivity))
        as (_ & _ & _ & Hx & HX).
      destruct a as [[] [] [] [] [] [] [] []]; try reflexivity;
        destruct b as [[] [] [] [] [] [] [] []]; try reflexivity; congruence. }
  split.
  - unfold parseInt. destruct s as [|a s']; [reflexivity|].
    assert (Ha : is_Some (radixDigit 10 a)).
    { simpl in Hs. destruct (radixDigit 10 a); [eexists; reflexivity | discriminate]. }
    destruct (radixDigit_10_char a Ha) as (Hws & Hminus & Hplus & _).
    cbn [trimStart]. rewrite Hws.
    assert (Hsign : match String a s' with
                    | String "-" r => (-1, r)
                    | String "+" r => (1, r)
                    | _ => (1, String a s')
                    end = (1, String a s')).
    { clear - Hminus Hplus.
      destruct a as [[] [] [] [] [] [] [] []]; try reflexivity; congruence. }
    rewrite Hsign, Hradix.
    destruct (parseDigits 10 None (String a s')) as [n|]; [|reflexivity].
    f_equal; lia.
  - unfold parseInt. cbn [trimStart]. change (isWhiteSpace "-") with false. cbv iota.
    rewrite Hradix.
    destruct (parseDigits 10 None s) as [n|]; [|reflexivity].
    f_equal; lia.
Qed.

Lemma parseInt_pretty_N (x : N) :
  (0 < x)%N ->
  parseInt (pretty x) = Num (Z.of_N x) /\
  parseInt (String "-" (pretty x)) = Num (- Z.of_N x).
Proof.
  intros Hpos. unfold pretty, pretty_N. rewrite decide_False by lia.
  destruct (parseInt_decimalDigits (pretty_N_go x "")
              (decimalDigits_pretty_N_go x "" eq_refl)) as [Hplus Hminus].
  rewrite Hplus, Hminus, parseDigits_pretty_N_go by exact Hpos.
  split; reflexivity.
Qed.

(** X6. Reading back the text that the grid writes into the page-index input
    box gives the number written: [parseInt] undoes [toString] on the
    integers that a number holds exactly and [toString] writes digit by
    digit, those below [2^53] in absolute value. *)
Theorem parseInt_pretty (n : Z) :
  Z.abs n < 2 ^ 53 -> parseInt (pretty n) = Num n.
Proof.
  intros _. destruct n as [|x|x].
  - reflexivity.
  - apply (parseInt_pretty_N (N.pos x)). reflexivity.
  - apply (parseInt_pretty_N (N.pos x)). reflexivity.
Qed.

Lemma parseInt_pretty_witness :
  parseInt (pretty 9007199254740991) = Num 9007199254740991 /\
  parseInt (pretty (-25)) = Num (-25).
Proof.
  split; apply parseInt_pretty; vm_compute; reflexivity.
Defined.

(** X7. With the decimal text of a non-zero integer [n] in the input box of
    a grid with items and a page loader, leaving the box, Enter and Tab all
    fetch page [n] brought into [[1, totalPages]] and show that page in the
    box; any other key changes nothing. *)
Theorem typed_page_is_fetched (g : DataGrid) (p : DataGridPaginationState)
    (pp : PaginationProps.t) (cb : callback) (n : Z) :
  pagination g = Some p ->
  props_pagination g = Some pp ->
  PaginationProps.getPageData pp = Some cb ->
  paginationOk g ->
  1 <= totalItems p ->
  pageIndexRef g = Some (pretty n) ->
  n <> 0 ->
  let page := Z.max 1 (Z.min n (totalPages p)) in
  exists g',
    handlePageChangeOnBlur g = Ok g' /\
    handlePageChangeOnKeyDown 13 g = Ok g' /\
    handlePageChangeOnKeyDown 9 g = Ok g' /\
    (forall keyCode, keyCode <> 13 -> keyCode <> 9 ->
                     handlePageChangeOnKeyDown keyCode g = Ok g) /\
    currentPage <$> pagination g' = Some page /\
    pageIndexRef g' = Some (pretty page) /\
    calls g' = (calls g ++ [CallGetPageData page (pageSize p)])%list.
Proof.
  intros Hp Hpp Hcb Hok Hti Hv Hn page.
  destruct (paginationOk_Some g p Hp Hok) as [Hpos Hder].
  pose proof (derivedFields_eq p Hpos Hder) as Heq.
  assert (Hpages : totalPages p = getTotalPages (totalItems p) (pageSize p))
    by (rewrite Heq at 1; reflexivity).
  assert (Hrun : handlePageChange g = Ok (getPage n (pageSize p) g)).
  { assert (Hparse : parseInt (pretty n) = Num n).
    { destruct n as [|x|x]; [reflexivity|..];
        apply (parseInt_pretty_N (N.pos x)); reflexivity. }
    unfold handlePageChange. rewrite Hp, Hv. simpl. rewrite Hparse.
    simpl. rewrite (proj2 (Z.eqb_neq n 0) Hn). reflexivity. }
  destruct (getPage_loader_state g p pp cb n (pageSize p) Hp Hpp Hcb Hpos Hder Hpos Hti)
    as (Hst & Hcalls & Hbox & _).
  rewrite <- Hpages in Hst, Hcalls, Hbox. fold page in Hst, Hcalls, Hbox.
  exists (getPage n (pageSize p) g).
  split; [exact Hrun|]. split; [exact Hrun|]. split; [exact Hrun|]. split.
  - intros keyCode H13 H9. unfold handlePageChangeOnKeyDown.
    rewrite (proj2 (Z.eqb_neq _ _) H13), (proj2 (Z.eqb_neq _ _) H9). reflexivity.
  - split; [rewrite Hst; reflexivity|]. split; [|exact Hcalls].
    rewrite Hbox, Hv. reflexivity.
Qed.

Lemma typed_page_is_fetched_witness :
  exists g',
    handlePageChangeOnBlur (with_pageIndexRef (Some "7") pagedGrid) = Ok g' /\
    currentPage <$> pagination g' = Some 3 /\
    pageIndexRef g' = Some "3" /\
    calls g' = [CallGetPageData 3 10].
Proof.
  destruct (typed_page_is_fetched (with_pageIndexRef (Some "7") pagedGrid)
              (mkPagination 1 10 25 1 10 3 (Some [10; 20]) (Some false))
              pagedProps 3%nat 7 eq_refl eq_refl eq_refl paginationOk_pagedGrid
              ltac:(simpl; lia) eq_refl ltac:(lia))
    as (g' & Hblur & _ & _ & _ & Hcur & Hbox & Hcalls).
  exists g'. split; [exact Hblur|]. split; [exact Hcur|]. split; [exact Hbox | exact Hcalls].
Defined.

(** ** Selection *)

(** The aggregate reads only the two selection fields of a row. *)
Lemma isAllRowsSelected_insert (rows : list DataGridRow) (i : nat) (row row' : DataGridRow) :
  rows !! i = Some row ->
  isSelected row' = isSelected row ->
  disableRowSelection row' = disableRowSelection row ->
  isAllRowsSelected (<[i := row']> rows) = isAllRowsSelected rows.
Proof.
  intros Hi Hsel Hdis. unfold isAllRowsSelected. cbv zeta.
  assert (Hlen : forall rows i, rows !! i = Some row ->
            length (getSelectionEnabledRows (<[i := row']> rows)) =
            length (getSelectionEnabledRows rows) /\
            allTrueOnKey_isSelected (getSelectionEnabledRows (<[i := row']> rows)) =
            allTrueOnKey_isSelected (getSelectionEnabledRows rows)).
  { clear rows i Hi. induction rows as [|r rows IH]; intros i Hi; [discriminate|].
    destruct i as [|i]; simpl in *.
    - injection Hi as ->. rewrite Hdis.
      destruct (negb (truthy (disableRowSelection row))); simpl; rewrite ?Hsel; auto.
    - destruct (IH i Hi) as [IHl IHa].
      destruct (negb (truthy (disableRowSelection r))); simpl; rewrite ?IHl, ?IHa; auto. }
  destruct (Hlen rows i Hi) as [-> ->]. reflexivity.
Qed.

Lemma getSelectionEnabledRows_handleSelectAll (b : bool) (rows : list DataGridRow) :
  getSelectionEnabledRows
    ((fun row => if negb (truthy (disableRowSelection row))
                 then with_isSelected (Some b) row else row) <$> rows) =
  with_isSelected (Some b) <$> getSelectionEnabledRows rows.
Proof.
  induction rows as [|r rows IH]; [reflexivity|].
  rewrite fmap_cons. unfold getSelectionEnabledRows in *. simpl.
  destruct (negb (truthy (disableRowSelection r))) eqn:Hr; simpl; rewrite Hr, IH; reflexivity.
Qed.

Lemma allTrueOnKey_with_isSelected (b : bool) (rows : list DataGridRow) :
  rows <> [] ->
  allTrueOnKey_isSelected (with_isSelected (Some b) <$> rows) = b.
Proof.
  unfold allTrueOnKey_isSelected.
  induction rows as [|r [|r' rows] IH]; intros Hne; [congruence| |].
  - destruct b; reflexivity.
  - change (truthy (Some b) && forallb (fun row => truthy (isSelected row))
                                 (with_isSelected (Some b) <$> r' :: rows) = b).
    rewrite IH by discriminate. destruct b; reflexivity.
Qed.

Lemma isAllRowsSelected_handleSelectAll (g : DataGrid) :
  isAllRowsSelected (allRows (handleSelectAll g)) =
  if (0 <? length (getSelectionEnabledRows (allRows g)))%nat
  then negb (selectAll g) else false.
Proof.
  unfold isAllRowsSelected, handleSelectAll. cbv zeta. simpl.
  rewrite getSelectionEnabledRows_handleSelectAll, length_fmap.
  destruct (getSelectionEnabledRows (allRows g)) as [|r rows] eqn:E; [reflexivity|].
  change (0 <? length (r :: rows))%nat with true. cbv iota.
  apply allTrueOnKey_with_isSelected. discriminate.
Qed.

Lemma toggleExpand_rows (g g' : DataGrid) (i : nat) :
  toggleExpand i g = Ok g' ->
  allRows g' = allRows g \/
  exists row e,
    allRows g !! i = Some row /\
    allRows g' = <[i := with_expandableRowData e row]> (allRows g).
Proof.
  unfold toggleExpand.
  destruct (allRows g !! i) as [row|] eqn:Hi; [|discriminate].
  destruct (expandableRowData row) as [e|]; [|intros [= <-]; left; reflexivity].
  cbv zeta. simpl.
  destruct (onRowExpand e); destruct (negb (truthy (isExpanded e)));
    intros [= <-]; right; do 2 eexists; (split; [reflexivity|]); reflexivity.
Qed.

Lemma toggleExpand_frame_fields (g g' : DataGrid) (i : nat) :
  toggleExpand i g = Ok g' ->
  selectAll g' = selectAll g /\ allColumns g' = allColumns g /\
  pagination g' = pagination g /\ isLoading g' = isLoading g /\
  sorts g' = sorts g /\ pageIndexRef g' = pageIndexRef g.
Proof.
  unfold toggleExpand.
  destruct (allRows g !! i) as [row|] eqn:Hi; [|discriminate].
  destruct (expandableRowData row) as [e|]; [|intros [= <-]; repeat split].
  cbv zeta. simpl.
  destruct (onRowExpand e); destruct (negb (truthy (isExpanded e)));
    intros [= <-]; repeat split.
Qed.

(** X8. [selectAll] agrees with the rows ([selectAll = isAllRowsSelected
    allRows]) after [updateRows], after the arrival of page data and after
    [handleSelectSingle]; [getPage], [updateColumns] and toggling the
    expansion of a row keep the agreement.  [handleSelectAll] gives it when it
    deselects or when some row is selection-eligible; when it selects and no
    row is eligible it sets [selectAll] although no row is selected. *)
Theorem selectAll_consistency :
  (forall g rows totalItems', selectAll_consistent (updateRows rows totalItems' g)) /\
  (forall g data, selectAll_consistent (getPage_then data g)) /\
  (forall g rowID', selectAll_consistent (handleSelectSingle rowID' g)) /\
  (forall g, selectAll_consistent g ->
     (forall pageIndex pageSize', selectAll_consistent (getPage pageIndex pageSize' g)) /\
     (forall cols, selectAll_consistent (updateColumns cols g)) /\
     (forall i g', toggleExpand i g = Ok g' ->
        selectAll_consistent g' /\
        forall content, selectAll_consistent (toggleExpand_then i content g'))) /\
  (forall g,
     selectAll g = true \/ (exists row, row ∈ allRows g /\ selectionEligible row) ->
     selectAll_consistent (handleSelectAll g)) /\
  (forall g,
     selectAll g = false ->
     (forall row, row ∈ allRows g -> ~ selectionEligible row) ->
     selectAll (handleSelectAll g) = true /\
     isAllRowsSelected (allRows (handleSelectAll g)) = false).
Proof.
  unfold selectAll_consistent.
  split; [intros; reflexivity|]. split; [intros; reflexivity|].
  split; [intros; reflexivity|]. split; [|split].
  - intros g Hg. split; [|split].
    + intros pageIndex pageSize'. unfold getPage.
      destruct (pagination g) as [p|]; [|exact Hg].
      destruct (props_pagination g) as [pp|]; [|exact Hg]. cbv zeta.
      destruct (PaginationProps.getPageData pp);
        destruct (pageIndexRef (showLoader g)); exact Hg.
    + intros cols. unfold updateColumns. cbv zeta.
      destruct (props_updateDataGridColumns _); exact Hg.
    + intros i g' Hrun.
      destruct (toggleExpand_frame_fields g g' i Hrun) as (Hsel & _).
      assert (Hg' : selectAll g' = isAllRowsSelected (allRows g')).
      { rewrite Hsel, Hg.
        destruct (toggleExpand_rows g g' i Hrun) as [->|(row & e & Hi & ->)];
          [reflexivity|].
        symmetry. apply (isAllRowsSelected_insert _ _ row); auto. }
      split; [exact Hg'|]. intros content. unfold toggleExpand_then.
      destruct (allRows g' !! i) as [row|] eqn:Hi; [|exact Hg'].
      destruct (expandableRowData row) as [e|]; [|exact Hg']. simpl.
      rewrite Hg'. symmetry. apply (isAllRowsSelected_insert _ _ row); auto.
  - intros g Hcase. rewrite isAllRowsSelected_handleSelectAll.
    change (selectAll (handleSelectAll g)) with (negb (selectAll g)).
    destruct (getSelectionEnabledRows (allRows g)) as [|r rows] eqn:E; [|reflexivity].
    destruct Hcase as [->|(row & Hin & Hel)]; [reflexivity|].
    assert (Hrow : row ∈ getSelectionEnabledRows (allRows g))
      by (apply elem_of_getSelectionEnabledRows; auto).
    rewrite E in Hrow. inversion Hrow.
  - intros g Hsel Hnone. split; [simpl; rewrite Hsel; reflexivity|].
    rewrite isAllRowsSelected_handleSelectAll.
    destruct (getSelectionEnabledRows (allRows g)) as [|r rows] eqn:E; [reflexivity|].
    assert (Hr : r ∈ getSelectionEnabledRows (allRows g)) by (rewrite E; left).
    apply elem_of_getSelectionEnabledRows in Hr as [Hin Hel].
    destruct (Hnone r Hin Hel).
Qed.

Lemma selectAll_consistency_witness :
  selectAll_consistent (handleSelectAll sampleGrid) /\
  selectAll (handleSelectAll sampleGrid) = true.
Proof.
  destruct selectAll_consistency as (_ & _ & _ & _ & Hall & _).
  split; [|reflexivity]. apply Hall. right.
  exists (mkRow [mkCell "b" "name"] (Some 1%nat) (Some true) None None).
  split; [right; left | left; reflexivity].
Defined.

Lemma handleSelectAll_lookup (g : DataGrid) (i : nat) (row : DataGridRow) :
  allRows g !! i = Some row ->
  allRows (handleSelectAll g) !! i =
  Some (if negb (truthy (disableRowSelection row))
        then with_isSelected (Some (negb (selectAll g))) row else row).
Proof.
  intros Hi. unfold handleSelectAll. cbv zeta. simpl.
  rewrite list_lookup_fmap, Hi. reflexivity.
Qed.

Lemma elem_of_getSelectedRows (g : DataGrid) (row : DataGridRow) :
  row ∈ getSelectedRows g <-> row ∈ allRows g /\ isSelected row = Some true.
Proof.
  unfold getSelectedRows.
  rewrite !list_elem_of_In, filter_In, truthy_Some_true. reflexivity.
Qed.

(** X9. The select-all checkbox sets the selection flag of every
    selection-eligible row to the new value and leaves every other row as it
    is.  So after "select all" every eligible row is among the selected rows,
    and after "deselect all" the rows that are still selected are rows with
    selection disabled that were selected before. *)
Theorem handleSelectAll_rows (g : DataGrid) :
  length (allRows (handleSelectAll g)) = length (allRows g) /\
  (forall i row, allRows g !! i = Some row ->
     (selectionEligible row ->
      allRows (handleSelectAll g) !! i =
        Some (with_isSelected (Some (negb (selectAll g))) row)) /\
     (~ selectionEligible row -> allRows (handleSelectAll g) !! i = Some row)) /\
  (selectAll g = false ->
   forall row, row ∈ allRows g -> selectionEligible row ->
               with_isSelected (Some true) row ∈ getSelectedRows (handleSelectAll g)) /\
  (selectAll g = true ->
   forall row, row ∈ getSelectedRows (handleSelectAll g) ->
               ~ selectionEligible row /\ row ∈ getSelectedRows g).
Proof.
  split; [unfold handleSelectAll; cbv zeta; simpl; apply length_fmap|].
  split; [|split].
  - intros i row Hi. rewrite (handleSelectAll_lookup g i row Hi).
    split; intros Hel.
    + rewrite (proj2 (selectionEligible_truthy row) Hel). reflexivity.
    + destruct (negb (truthy (disableRowSelection row))) eqn:E; [|reflexivity].
      destruct Hel. apply selectionEligible_truthy. exact E.
  - intros Hsel row Hin Hel. apply elem_of_getSelectedRows. split; [|reflexivity].
    apply list_elem_of_lookup in Hin as [i Hi].
    apply (list_elem_of_lookup_2 _ i).
    rewrite (handleSelectAll_lookup g i row Hi), Hsel.
    rewrite (proj2 (selectionEligible_truthy row) Hel). reflexivity.
  - intros Hsel row Hin. apply elem_of_getSelectedRows in Hin as [Hin Htrue].
    apply list_elem_of_lookup in Hin as [i Hi].
    assert (Hlt : (i < length (allRows g))%nat).
    { apply lookup_lt_Some in Hi. unfold handleSelectAll in Hi. cbv zeta in Hi.
      simpl in Hi. rewrite length_fmap in Hi. exact Hi. }
    destruct (lookup_lt_is_Some_2 _ _ Hlt) as [row0 Hi0].
    rewrite (handleSelectAll_lookup g i row0 Hi0), Hsel in Hi.
    destruct (negb (truthy (disableRowSelection row0))) eqn:E.
    + injection Hi as <-. discriminate Htrue.
    + injection Hi as <-. split.
      * intros Hel. apply selectionEligible_truthy in Hel. congruence.
      * apply elem_of_getSelectedRows. split; [|exact Htrue].
        eapply list_elem_of_lookup_2; eassumption.
Qed.

(** Filtering a mapped list in which only position [i] can pass. *)
Lemma filter_fmap_only {A B : Type} (P : B -> bool) (f : A -> B) (l : list A)
    (i : nat) (x : A) :
  l !! i = Some x ->
  (forall j y, l !! j = Some y -> j <> i -> P (f y) = false) ->
  List.filter P (f <$> l) = if P (f x) then [f x] else [].
Proof.
  revert i. induction l as [|a l IH]; intros i Hi Hothers; [discriminate|].
  rewrite fmap_cons. simpl. destruct i as [|i].
  - injection Hi as ->.
    assert (Hrest : List.filter P (f <$> l) = []).
    { clear IH. assert (Hall : forall j y, l !! j = Some y -> P (f y) = false)
        by (intros j y Hj; apply (Hothers (S j) y Hj); lia).
      clear Hothers. induction l as [|b l IHl]; [reflexivity|].
      rewrite fmap_cons. simpl. rewrite (Hall 0%nat b eq_refl).
      apply IHl. intros j y Hj. apply (Hall (S j) y Hj). }
    rewrite Hrest. reflexivity.
  - rewrite (Hothers 0%nat a eq_refl ltac:(lia)).
    apply (IH i Hi). intros j y Hj Hne. apply (Hothers (S j) y Hj). lia.
Qed.

(** X10. In single-selection mode, when row ids are the positions of the
    rows, clicking the radio button of row [i] leaves at most one selected
    row: row [i] alone if it was not selected, none if it was. *)
Theorem handleSelectSingle_single (g : DataGrid) (i : nat) (row : DataGridRow) :
  props_selectionType g = Some SINGLE ->
  rowIDs_ok (allRows g) ->
  allRows g !! i = Some row ->
  getSelectedRows (handleSelectSingle (Some i) g) =
    (if truthy (isSelected row) then [] else [with_isSelected (Some true) row]) /\
  handleSelectSingle_onRowSelect (Some i) g =
    Some (with_isSelected (Some (negb (truthy (isSelected row)))) row).
Proof.
  intros Hmode Hids Hi.
  assert (Hid : rowID row = Some i) by (apply Hids; exact Hi).
  unfold handleSelectSingle_onRowSelect, getSelectedRows, handleSelectSingle.
  cbv zeta. simpl. rewrite Hmode. split.
  - rewrite (filter_fmap_only _ _ (allRows g) i row Hi).
    + rewrite decide_True by exact Hid. simpl.
      destruct (truthy (isSelected row)); reflexivity.
    + intros j y Hj Hne. rewrite decide_False; [reflexivity|].
      rewrite (Hids j y Hj). congruence.
  - rewrite (filter_fmap_only _ _ (allRows g) i row Hi).
    + rewrite decide_True by exact Hid. simpl.
      rewrite bool_decide_eq_true_2 by exact Hid. reflexivity.
    + intros j y Hj Hne. rewrite decide_False by (rewrite (Hids j y Hj); congruence).
      simpl. apply bool_decide_eq_false_2. rewrite (Hids j y Hj). congruence.
Qed.

Lemma sampleRows_rowIDs_ok : rowIDs_ok sampleRows.
Proof.
  intros i row Hi. destruct i as [|[|i]]; simpl in Hi; try discriminate;
    injection Hi as <-; reflexivity.
Qed.

Lemma handleSelectSingle_single_witness :
  getSelectedRows
    (handleSelectSingle (Some 0%nat)
       (mkGrid None (Some SINGLE) false false sampleColumns sampleRows None false None
               sampleSorts [])) =
  [ mkRow [mkCell "a" "name"] (Some 0%nat) (Some true) (Some sampleLoader) None ].
Proof.
  apply (handleSelectSingle_single
           (mkGrid None (Some SINGLE) false false sampleColumns sampleRows None false None
                   sampleSorts [])
           0 (mkRow [mkCell "a" "name"] (Some 0%nat) (Some false) (Some sampleLoader) None));
    [reflexivity | exact sampleRows_rowIDs_ok | reflexivity].
Defined.

(** X11. Outside single-selection mode a click on the checkbox of a row
    flips the flag of the rows with that id and leaves the other rows as they
    are; when every row has a boolean flag, a second click on the same
    checkbox restores the rows and [selectAll] becomes what the rows say. *)
Theorem handleSelectSingle_multi (g : DataGrid) (rowID' : option nat) :
  props_selectionType g <> Some SINGLE ->
  (forall i row, allRows g !! i = Some row ->
     allRows (handleSelectSingle rowID' g) !! i =
       Some (if decide (rowID row = rowID')
             then with_isSelected (Some (negb (truthy (isSelected row)))) row
             else row)) /\
  ((forall row, row ∈ allRows g -> is_Some (isSelected row)) ->
   allRows (handleSelectSingle rowID' (handleSelectSingle rowID' g)) = allRows g /\
   selectAll (handleSelectSingle rowID' (handleSelectSingle rowID' g)) =
     isAllRowsSelected (allRows g)).
Proof.
  intros Hmode.
  assert (Hstep : forall g0, props_selectionType g0 <> Some SINGLE ->
            allRows (handleSelectSingle rowID' g0) =
            (fun row => if decide (rowID row = rowID')
                        then with_isSelected (Some (negb (truthy (isSelected row)))) row
                        else row) <$> allRows g0).
  { intros g0 H0. unfold handleSelectSingle. cbv zeta. simpl.
    destruct (props_selectionType g0) as [[|]|]; try reflexivity. congruence. }
  split.
  - intros i row Hi. rewrite (Hstep g Hmode), list_lookup_fmap, Hi. reflexivity.
  - intros Hbool.
    assert (Hrows : allRows (handleSelectSingle rowID' (handleSelectSingle rowID' g))
                    = allRows g).
    { rewrite (Hstep (handleSelectSingle rowID' g)) by exact Hmode.
      rewrite (Hstep g Hmode), <- list_fmap_compose.
      rewrite <- (list_fmap_id (allRows g)) at 2.
      apply list_fmap_ext. intros k row Hk.
      destruct (Hbool row (list_elem_of_lookup_2 _ _ _ Hk)) as [b Hb]. simpl.
      destruct (decide (rowID row = rowID')) as [Hid|Hid].
      - simpl. rewrite decide_True by exact Hid.
        destruct row as [rd rid sel ex dis]. simpl in *. subst sel.
        unfold with_isSelected. simpl. destruct b; reflexivity.
      - rewrite decide_False by exact Hid. reflexivity. }
    split; [exact Hrows|].
    change (selectAll (handleSelectSingle rowID' (handleSelectSingle rowID' g)))
      with (isAllRowsSelected
              (allRows (handleSelectSingle rowID' (handleSelectSingle rowID' g)))).
    rewrite Hrows. reflexivity.
Qed.

Lemma handleSelectSingle_multi_witness :
  allRows (handleSelectSingle (Some 1%nat) (handleSelectSingle (Some 1%nat) sampleGrid))
  = allRows sampleGrid.
Proof.
  refine (proj1 (proj2 (handleSelectSingle_multi sampleGrid (Some 1%nat) _) _)).
  - discriminate.
  - intros row Hin. apply list_elem_of_In in Hin. simpl in Hin.
    destruct Hin as [<-|[<-|[]]]; eexists; reflexivity.
Defined.

(** ** Identity of rows and columns *)

Lemma updateRowIDs_lookup (rows : list DataGridRow) (i : nat) :
  updateRowIDs rows !! i =
  (fun row => mkRow (rowData row) (Some i) (isSelected row) (expandableRowData row)
                    (disableRowSelection row)) <$> rows !! i.
Proof. unfold updateRowIDs. apply list_lookup_imap. Qed.

Lemma updateRowIDs_ok (rows : list DataGridRow) : rowIDs_ok (updateRowIDs rows).
Proof.
  intros i row. rewrite updateRowIDs_lookup.
  destruct (rows !! i); [|discriminate]. intros [= <-]. reflexivity.
Qed.

(** X12. [updateRowIDs] makes the id of every row its position, changes
    nothing else in a row, keeps the number of rows, and applied to rows whose
    ids are their positions it changes nothing.  Hence the ids are the
    positions after [updateRows], after the arrival of page data and after a
    completed sort. *)
Theorem rowIDs_are_positions :
  (forall rows, rowIDs_ok (updateRowIDs rows) /\
                length (updateRowIDs rows) = length rows /\
                forall i row', updateRowIDs rows !! i = Some row' ->
                  exists row, rows !! i = Some row /\
                    rowData row' = rowData row /\ isSelected row' = isSelected row /\
                    expandableRowData row' = expandableRowData row /\
                    disableRowSelection row' = disableRowSelection row) /\
  (forall rows, rowIDs_ok rows -> updateRowIDs rows = rows) /\
  (forall g rows totalItems', rowIDs_ok (allRows (updateRows rows totalItems' g))) /\
  (forall g data, rowIDs_ok (allRows (getPage_then data g))) /\
  (forall g i data g', activateSort i data g = Ok g' ->
                       rowIDs_ok (allRows g) -> rowIDs_ok (allRows g')).
Proof.
  split; [|split; [|split; [|split]]].
  - intros rows. split; [apply updateRowIDs_ok|].
    split; [unfold updateRowIDs; apply length_imap|].
    intros i row'. rewrite updateRowIDs_lookup.
    destruct (rows !! i) as [row|]; [|discriminate].
    intros [= <-]. exists row. repeat split.
  - intros rows Hok. apply list_eq. intros i. rewrite updateRowIDs_lookup.
    destruct (rows !! i) as [row|] eqn:Hi; [|reflexivity]. simpl.
    rewrite <- (Hok i row Hi). destruct row; reflexivity.
  - intros g rows ti. unfold updateRows. cbv zeta.
    destruct (pagination g); destruct ti; simpl;
      try destruct (pageIndexRef g); apply updateRowIDs_ok.
  - intros g data. apply updateRowIDs_ok.
  - intros g i data g'. unfold activateSort.
    destruct (allColumns g !! i) as [col|]; [|intros [= <-]; auto].
    destruct (sort col ≫= _) as [s|]; [|intros [= <-]; auto].
    destruct (columnID col) as [id|].
    + unfold handleSort_then.
      destruct (allColumns _ !! id ≫= sort) as [l|]; [|discriminate].
      intros [= <-] _. apply updateRowIDs_ok.
    + intros [= <-]. auto.
Qed.

Lemma updateColumns_lookup (cols : list DataGridColumn) (g : DataGrid) (i : nat) :
  allColumns (updateColumns cols g) !! i =
  (fun c => mkColumn (columnName c) (Some i)
              (match sort c with
               | Some _ => findColumn (allColumns g) (columnName c) ≫= sort
               | None => None
               end)
              (Some (default true (isVisible c))) (width c)) <$> cols !! i.
Proof.
  destruct (allColumns_updateColumns cols g) as [-> _].
  unfold updateColumnIDs, setSortingState, setColumnVisibility.
  rewrite list_lookup_imap, !list_lookup_fmap.
  destruct (cols !! i) as [c|]; [|reflexivity]. simpl.
  destruct (sort c); reflexivity.
Qed.

(** X13. After a column-set replacement the id of every column is its
    position, every column has a visibility flag (the incoming one, or true
    when none was given) and its incoming width; as many columns as came in;
    and the column-change listener, when there is one, has been called with
    the new columns. *)
Theorem updateColumns_ids_visibility (cols : list DataGridColumn) (g : DataGrid) :
  length (allColumns (updateColumns cols g)) = length cols /\
  (forall i c', allColumns (updateColumns cols g) !! i = Some c' ->
     exists c, cols !! i = Some c /\
       columnID c' = Some i /\
       isVisible c' = Some (default true (isVisible c)) /\
       width c' = width c /\ columnName c' = columnName c) /\
  calls (updateColumns cols g) =
    (if props_updateDataGridColumns g
     then calls g ++ [CallUpdateDataGridColumns (allColumns (updateColumns cols g))]
     else calls g)%list /\
  allRows (updateColumns cols g) = allRows g /\
  selectAll (updateColumns cols g) = selectAll g.
Proof.
  split; [|split].
  - destruct (allColumns_updateColumns cols g) as [-> _].
    unfold updateColumnIDs, setSortingState, setColumnVisibility.
    rewrite length_imap, !length_fmap. reflexivity.
  - intros i c'. rewrite updateColumns_lookup.
    destruct (cols !! i) as [c|]; [|discriminate].
    intros [= <-]. exists c. repeat split.
  - unfold updateColumns. cbv zeta. simpl.
    destruct (props_updateDataGridColumns g); repeat split.
Qed.

Lemma findColumn_NoDup (columns : list DataGridColumn) (i : nat) (c : DataGridColumn) :
  NoDup (columnName <$> columns) ->
  columns !! i = Some c ->
  findColumn columns (columnName c) = Some c.
Proof.
  intros Hnd Hi. apply (findColumn_first columns _ i c Hi eq_refl).
  intros k' p' Hlt Hk' Hname.
  assert (k' = i); [|lia].
  apply (NoDup_lookup (columnName <$> columns) k' i (columnName c)); [exact Hnd|..].
  - rewrite list_lookup_fmap, Hk'. simpl. congruence.
  - rewrite list_lookup_fmap, Hi. reflexivity.
Qed.

(** X14. Handing the grid its own columns back (as the hide/show menu does)
    changes no column, provided the column names are distinct, the ids are
    the positions and every column has a visibility flag. *)
Theorem updateColumns_own_columns (g : DataGrid) :
  NoDup (columnName <$> allColumns g) ->
  (forall i c, allColumns g !! i = Some c ->
               columnID c = Some i /\ is_Some (isVisible c)) ->
  allColumns (updateColumns (allColumns g) g) = allColumns g.
Proof.
  intros Hnd Hnorm. apply list_eq. intros i. rewrite updateColumns_lookup.
  destruct (allColumns g !! i) as [c|] eqn:Hi; [|reflexivity]. simpl.
  destruct (Hnorm i c Hi) as [Hid [v Hv]].
  rewrite (findColumn_NoDup _ i c Hnd Hi). simpl.
  destruct c as [n cid so vis w]. simpl in *. subst cid vis.
  destruct so; reflexivity.
Qed.

Lemma updateColumns_own_columns_witness :
  allColumns (updateColumns (allColumns sampleGrid) sampleGrid) = allColumns sampleGrid.
Proof.
  apply (updateColumns_own_columns sampleGrid).
  - apply (bool_decide_unpack (NoDup (columnName <$> allColumns sampleGrid))).
    vm_compute. exact I.
  - intros i c Hi. destruct i as [|[|[|i]]]; simpl in Hi; try discriminate;
      injection Hi as <-; (split; [reflexivity | eexists; reflexivity]).
Defined.

(** X15. [updateColumnWidth] gives the column at the position [col.columnID]
    the width of [col] and changes no other field and no other column;
    without a [columnID] it does nothing, and with a [columnID] beyond the
    last column it throws. *)
Theorem updateColumnWidth_spec (g : DataGrid) (col : DataGridColumn) :
  (columnID col = None -> updateColumnWidth (Some col) g = Ok g) /\
  (forall id, columnID col = Some id -> (length (allColumns g) <= id)%nat ->
              updateColumnWidth (Some col) g = TypeError) /\
  (forall id c, columnID col = Some id -> allColumns g !! id = Some c ->
     exists g',
       updateColumnWidth (Some col) g = Ok g' /\
       length (allColumns g') = length (allColumns g) /\
       (exists c', allColumns g' !! id = Some c' /\ width c' = width col /\
                   columnName c' = columnName c /\ columnID c' = columnID c /\
                   sort c' = sort c /\ isVisible c' = isVisible c) /\
       (forall j, j <> id -> allColumns g' !! j = allColumns g !! j) /\
       allRows g' = allRows g /\ sorts g' = sorts g).
Proof.
  unfold updateColumnWidth. split; [|split].
  - intros ->. reflexivity.
  - intros id -> Hge. rewrite (lookup_ge_None_2 _ _ Hge). reflexivity.
  - intros id c -> Hc. rewrite Hc.
    assert (Hlt : (id < length (allColumns g))%nat) by (eapply lookup_lt_Some; eassumption).
    eexists. split; [reflexivity|]. simpl.
    split; [apply length_insert|]. split.
    + eexists. split; [apply list_lookup_insert_eq; exact Hlt|]. repeat split.
    + split; [|split; reflexivity].
      intros j Hne. apply list_lookup_insert_ne. congruence.
Qed.

Lemma updateColumnWidth_spec_witness :
  exists g',
    updateColumnWidth (Some (mkColumn "type" (Some 1%nat) None None (Some 240))) sampleGrid
      = Ok g' /\
    width <$> allColumns g' = [Some 100; Some 240; Some 100].
Proof.
  destruct (updateColumnWidth_spec sampleGrid
              (mkColumn "type" (Some 1%nat) None None (Some 240)))
    as (_ & _ & Hset).
  destruct (Hset 1%nat (mkColumn "type" (Some 1%nat) (Some 1%nat) (Some true) (Some 100))
              eq_refl eq_refl) as (g' & Hrun & _).
  exists g'. split; [exact Hrun|].
  vm_compute in Hrun. injection Hrun as <-. reflexivity.
Defined.

(** X16. After [setInitalState] every column has its position as id, a
    visibility flag and a width other than 0 (its own, or the default 100
    when it had none or 0); every row has its position as id and a boolean
    selection flag, which is false for a row whose selection is disabled; so
    no such row is among the selected rows. *)
Theorem setInitalState_spec (g : DataGrid) :
  (forall i c', allColumns (setInitalState g) !! i = Some c' ->
     exists c, allColumns g !! i = Some c /\
       columnID c' = Some i /\ columnName c' = columnName c /\
       isVisible c' = Some (default true (isVisible c)) /\
       exists w, width c' = Some w /\ w <> 0 /\
                 (forall w0, width c = Some w0 -> w0 <> 0 -> w = w0) /\
                 (width c = None \/ width c = Some 0 -> w = 100)) /\
  (forall i row', allRows (setInitalState g) !! i = Some row' ->
     exists row, allRows g !! i = Some row /\
       rowID row' = Some i /\
       (disableRowSelection row = Some true -> isSelected row' = Some false) /\
       (disableRowSelection row <> Some true ->
        isSelected row' = Some (truthy (isSelected row)))) /\
  (forall row', row' ∈ getSelectedRows (setInitalState g) ->
                disableRowSelection row' <> Some true).
Proof.
  assert (Hrows : forall i row', allRows (setInitalState g) !! i = Some row' ->
     exists row, allRows g !! i = Some row /\
       rowID row' = Some i /\
       disableRowSelection row' = disableRowSelection row /\
       (disableRowSelection row = Some true -> isSelected row' = Some false) /\
       (disableRowSelection row <> Some true ->
        isSelected row' = Some (truthy (isSelected row)))).
  { intros i row'. unfold setInitalState. cbv zeta. simpl.
    rewrite list_lookup_fmap, updateRowIDs_lookup.
    destruct (allRows g !! i) as [row|]; [|discriminate]. simpl.
    intros [= <-]. exists row. simpl. split; [reflexivity|]. split; [reflexivity|].
    split; [reflexivity|]. split.
    - intros ->. reflexivity.
    - intros Hdis. destruct (disableRowSelection row) as [[|]|]; try congruence;
        destruct (isSelected row) as [[|]|]; reflexivity. }
  split; [|split].
  - intros i c'. unfold setInitalState. cbv zeta. simpl.
    unfold updateColumnIDs, setColumnVisibility.
    rewrite list_lookup_fmap, list_lookup_imap, list_lookup_fmap.
    destruct (allColumns g !! i) as [c|]; [|discriminate]. simpl.
    intros [= <-]. exists c. simpl. repeat (split; [reflexivity|]).
    eexists. split; [reflexivity|]. unfold DEFAULT_COLUMN_WIDTH.
    destruct (width c) as [w0|]; [destruct (Z.eqb_spec w0 0)|].
    + subst. repeat split; try lia. intros w1 [= <-]. congruence.
    + repeat split; try assumption.
      * intros w1 [= <-] _. reflexivity.
      * intros [H|H]; congruence.
    + repeat split; try lia. intros w1. discriminate.
  - intros i row' Hi. destruct (Hrows i row' Hi) as (row & H1 & H2 & _ & H3 & H4).
    exists row. auto.
  - intros row' Hin. apply elem_of_getSelectedRows in Hin as [Hin Hsel].
    apply list_elem_of_lookup in Hin as [i Hi].
    destruct (Hrows i row' Hi) as (row & _ & _ & Hdis & Hoff & _).
    rewrite Hdis. intros Htrue. rewrite (Hoff Htrue) in Hsel. discriminate.
Qed.

(** ** Row expansion: what stays *)

(** X17. [toggleExpand] throws for a position beyond the last row.  When it
    returns, the number of rows, the cells, id and selection fields of every
    row, the columns, the pagination state, [selectAll] and the grid's
    loading flag are as before, and at most one call, to the content loader
    of the toggled row, has been made. *)
Theorem toggleExpand_frame (g : DataGrid) (i : nat) :
  ((length (allRows g) <= i)%nat -> toggleExpand i g = TypeError) /\
  (forall g', toggleExpand i g = Ok g' ->
     length (allRows g') = length (allRows g) /\
     (forall j row row', allRows g !! j = Some row -> allRows g' !! j = Some row' ->
        rowData row' = rowData row /\ rowID row' = rowID row /\
        isSelected row' = isSelected row /\
        disableRowSelection row' = disableRowSelection row) /\
     selectAll g' = selectAll g /\ allColumns g' = allColumns g /\
     pagination g' = pagination g /\ isLoading g' = isLoading g /\
     (calls g' = calls g \/
      exists row', allRows g' !! i = Some row' /\
                   calls g' = (calls g ++ [CallOnRowExpand i row'])%list)).
Proof.
  split.
  - intros Hge. unfold toggleExpand. rewrite (lookup_ge_None_2 _ _ Hge). reflexivity.
  - intros g' Hrun.
    destruct (toggleExpand_frame_fields g g' i Hrun) as (Hsel & Hcols & Hpag & Hload & _).
    assert (Hcalls : calls g' = calls g \/
              exists row', allRows g' !! i = Some row' /\
                           calls g' = (calls g ++ [CallOnRowExpand i row'])%list).
    { revert Hrun. unfold toggleExpand.
      destruct (allRows g !! i) as [row|] eqn:Hi; [|discriminate].
      assert (Hlt : (i < length (allRows g))%nat) by (eapply lookup_lt_Some; eassumption).
      destruct (expandableRowData row) as [e|]; [|intros [= <-]; left; reflexivity].
      cbv zeta. simpl.
      destruct (onRowExpand e); destruct (negb (truthy (isExpanded e)));
        intros [= <-]; simpl; auto.
      right. eexists. split; [apply list_lookup_insert_eq; exact Hlt | reflexivity]. }
    destruct (toggleExpand_rows g g' i Hrun) as [Hrows|(row0 & e & Hi & Hrows)];
      rewrite Hrows in *.
    + split; [reflexivity|]. split; [|tauto].
      intros j row row' H1 H2. rewrite H1 in H2. injection H2 as <-. repeat split.
    + assert (Hlt : (i < length (allRows g))%nat) by (eapply lookup_lt_Some; eassumption).
      split; [apply length_insert|]. split; [|tauto].
      intros j row row' H1 H2. destruct (decide (j = i)) as [->|Hne].
      * rewrite Hi in H1. injection H1 as <-.
        rewrite list_lookup_insert_eq in H2 by exact Hlt. injection H2 as <-.
        repeat split.
      * rewrite list_lookup_insert_ne in H2 by congruence.
        rewrite H1 in H2. injection H2 as <-. repeat split.
Qed.

(** X18. For a row without a content loader, toggling twice calls nothing and
    brings the row back expanded or collapsed as it was; when its
    [isExpanded] was a boolean, all rows are exactly as before. *)
Theorem toggleExpand_static_twice (g : DataGrid) (i : nat) (row : DataGridRow)
    (e : expandableRowDetails) :
  allRows g !! i = Some row ->
  expandableRowData row = Some e ->
  onRowExpand e = None ->
  exists g1 g2 row1 e1 row2 e2,
    toggleExpand i g = Ok g1 /\ toggleExpand i g1 = Ok g2 /\
    allRows g1 !! i = Some row1 /\ expandableRowData row1 = Some e1 /\
    truthy (isExpanded e1) = negb (truthy (isExpanded e)) /\
    allRows g2 !! i = Some row2 /\ expandableRowData row2 = Some e2 /\
    truthy (isExpanded e2) = truthy (isExpanded e) /\
    expandableContent e2 = expandableContent e /\ isLoadingRow e2 = isLoadingRow e /\
    calls g2 = calls g /\
    (is_Some (isExpanded e) -> allRows g2 = allRows g).
Proof.
  intros Hi He Hno.
  assert (Hlt : (i < length (allRows g))%nat) by (eapply lookup_lt_Some; eassumption).
  set (e1 := mkExpandable (isLoadingRow e) None (expandableContent e)
                          (Some (negb (truthy (isExpanded e)))) (hideRowExpandIcon e)).
  set (g1 := with_allRows (<[i := with_expandableRowData e1 row]> (allRows g)) g).
  assert (H1 : toggleExpand i g = Ok g1).
  { unfold toggleExpand. rewrite Hi, He. cbv zeta. simpl. rewrite Hno. reflexivity. }
  assert (Hi1 : allRows g1 !! i = Some (with_expandableRowData e1 row))
    by (apply list_lookup_insert_eq; exact Hlt).
  set (e2 := mkExpandable (isLoadingRow e) None (expandableContent e)
                          (Some (negb (truthy (isExpanded e1)))) (hideRowExpandIcon e)).
  set (g2 := with_allRows
               (<[i := with_expandableRowData e2 (with_expandableRowData e1 row)]>
                  (allRows g1)) g1).
  assert (H2 : toggleExpand i g1 = Ok g2).
  { unfold toggleExpand. rewrite Hi1. reflexivity. }
  exists g1, g2, (with_expandableRowData e1 row), e1,
    (with_expandableRowData e2 (with_expandableRowData e1 row)), e2.
  split; [exact H1|]. split; [exact H2|]. split; [exact Hi1|].
  split; [reflexivity|].
  split; [simpl; destruct (truthy (isExpanded e)); reflexivity|].
  split; [apply list_lookup_insert_eq; simpl; rewrite length_insert; exact Hlt|].
  split; [reflexivity|].
  split; [simpl; destruct (truthy (isExpanded e)); reflexivity|].
  split; [reflexivity|]. split; [reflexivity|]. split; [reflexivity|].
  intros [b Hb]. simpl. rewrite list_insert_insert_eq.
  apply list_insert_id. rewrite Hi. f_equal.
  destruct row as [rd rid sel ex dis]. simpl in *. subst ex.
  unfold with_expandableRowData. simpl. f_equal. f_equal.
  destruct e as [lo on co ex hi]. simpl in *. subst ex on.
  unfold e2, e1. simpl. destruct b; reflexivity.
Qed.

Lemma toggleExpand_static_twice_witness :
  exists g1 g2,
    toggleExpand 0 (with_allRows
                      [mkRow [] (Some 0%nat) None
                             (Some (mkExpandable None None (Some "text") (Some false) None))
                             None] sampleGrid) = Ok g1 /\
    toggleExpand 0 g1 = Ok g2 /\
    allRows g2 = [mkRow [] (Some 0%nat) None
                        (Some (mkExpandable None None (Some "text") (Some false) None))
                        None] /\
    calls g2 = [].
Proof.
  destruct (toggleExpand_static_twice
              (with_allRows
                 [mkRow [] (Some 0%nat) None
                        (Some (mkExpandable None None (Some "text") (Some false) None))
                        None] sampleGrid)
              0 _ _ eq_refl eq_refl eq_refl)
    as (g1 & g2 & r1 & x1 & r2 & x2 & H1 & H2 & _ & _ & _ & _ & _ & _ & _ & _
        & Hcalls & Hrows).
  exists g1, g2. split; [exact H1|]. split; [exact H2|].
  split; [apply Hrows; eexists; reflexivity | exact Hcalls].
Defined.

(** ** The tabs component *)

Lemma tabClicked_map_spec (clickedTab : NewTabs.TabDetails) (tabs : list NewTabs.TabDetails)
    (index : nat) (l : option nat) (a : bool) :
  NewTabs.tabClicked_map clickedTab index tabs l a =
  ((fun tab => NewTabs.setSelected
                 (String.eqb (NewTabs.id clickedTab) (NewTabs.id tab)
                  && negb (NewTabs.isStatic clickedTab)) tab) <$> tabs,
   match NewTabs.lastSelectedIndex tabs with
   | Some k => Some (index + k)%nat
   | None => l
   end,
   a || (NewTabs.isStatic clickedTab
         && existsb (fun tab => String.eqb (NewTabs.id clickedTab) (NewTabs.id tab)) tabs)).
Proof.
  revert index l a. induction tabs as [|tab rest IH]; intros index l a.
  - simpl. rewrite andb_false_r, orb_false_r. reflexivity.
  - cbn [NewTabs.tabClicked_map NewTabs.lastSelectedIndex existsb]. rewrite fmap_cons.
    destruct (String.eqb (NewTabs.id clickedTab) (NewTabs.id tab)) eqn:Eid;
      destruct (NewTabs.isStatic clickedTab) eqn:Est; simpl; rewrite IH;
      destruct (NewTabs.lastSelectedIndex rest) as [k|];
      destruct (truthy (NewTabs.isSelected tab));
      rewrite ?Nat.add_0_r, ?Nat.add_succ_r, ?orb_true_r, ?orb_false_r, ?andb_false_r;
      simpl; rewrite ?orb_true_r; reflexivity.
Qed.

(** [lastSelectedIndex] is the greatest position of a selected tab. *)
Lemma lastSelectedIndex_spec (tabs : list NewTabs.TabDetails) :
  match NewTabs.lastSelectedIndex tabs with
  | Some m =>
      (exists tm, tabs !! m = Some tm /\ truthy (NewTabs.isSelected tm) = true) /\
      (forall j tj, tabs !! j = Some tj -> truthy (NewTabs.isSelected tj) = true ->
                    (j <= m)%nat)
  | None => forall j tj, tabs !! j = Some tj -> truthy (NewTabs.isSelected tj) = false
  end.
Proof.
  induction tabs as [|tab rest IH]; simpl; [intros j tj; discriminate|].
  destruct (NewTabs.lastSelectedIndex rest) as [k|].
  - destruct IH as [[tm [Hm Htm]] Hmax]. split; [exists tm; auto|].
    intros [|j] tj Hj Hsel; [lia|]. apply le_n_S. eapply Hmax; eassumption.
  - destruct (truthy (NewTabs.isSelected tab)) eqn:Et.
    + split; [exists tab; auto|].
      intros [|j] tj Hj Hsel; [lia|]. simpl in Hj. rewrite (IH j tj Hj) in Hsel.
      discriminate.
    + intros [|j] tj Hj; [injection Hj as <-; exact Et | exact (IH j tj Hj)].
Qed.

Lemma existsb_id_lookup (clickedTab : NewTabs.TabDetails) (tabs : list NewTabs.TabDetails)
    (k : nat) (tab : NewTabs.TabDetails) :
  tabs !! k = Some tab -> NewTabs.id tab = NewTabs.id clickedTab ->
  existsb (fun tab => String.eqb (NewTabs.id clickedTab) (NewTabs.id tab)) tabs = true.
Proof.
  intros Hk Hid. apply existsb_exists. exists tab. split.
  - apply list_elem_of_In. eapply list_elem_of_lookup_2; eassumption.
  - apply String.eqb_eq. congruence.
Qed.

(** X19. Choosing a tab that is not static in the overflow menu selects the
    tabs with the id of the chosen tab and deselects all others; with
    distinct ids and the chosen tab at position [k], the tab at [k] is the one
    selected tab.  The chosen id becomes [selectedTabId]. *)
Theorem tabClicked_simple (c : NewTabs.Tabs) (clickedTab : NewTabs.TabDetails)
    (isOverflowTab : bool) :
  NewTabs.isStatic clickedTab = false ->
  let c' := NewTabs.tabClicked clickedTab isOverflowTab c in
  NewTabs.selectedTabId c' = NewTabs.id clickedTab /\
  NewTabs.isOverflowTabSelected c' = isOverflowTab /\
  length (NewTabs.tabs c') = length (NewTabs.tabs c) /\
  (forall i tab, NewTabs.tabs c !! i = Some tab ->
     exists tab', NewTabs.tabs c' !! i = Some tab' /\
       NewTabs.id tab' = NewTabs.id tab /\ NewTabs.name tab' = NewTabs.name tab /\
       (NewTabs.isSelected tab' = Some true <-> NewTabs.id tab = NewTabs.id clickedTab) /\
       (NewTabs.isSelected tab' = Some false <-> NewTabs.id tab <> NewTabs.id clickedTab)) /\
  (forall k tk, NoDup (NewTabs.id <$> NewTabs.tabs c) ->
     NewTabs.tabs c !! k = Some tk -> NewTabs.id tk = NewTabs.id clickedTab ->
     forall i tab', NewTabs.tabs c' !! i = Some tab' ->
                    (NewTabs.isSelected tab' = Some true <-> i = k)).
Proof.
  intros Hst c'.
  assert (Htabs : NewTabs.tabs c' =
                  (fun tab => NewTabs.setSelected
                                (String.eqb (NewTabs.id clickedTab) (NewTabs.id tab)) tab)
                    <$> NewTabs.tabs c).
  { subst c'. unfold NewTabs.tabClicked. rewrite tabClicked_map_spec, Hst. simpl.
    apply list_fmap_ext. intros i tab _. rewrite andb_true_r. reflexivity. }
  assert (Hlook : forall i tab, NewTabs.tabs c !! i = Some tab ->
     exists tab', NewTabs.tabs c' !! i = Some tab' /\
       NewTabs.id tab' = NewTabs.id tab /\ NewTabs.name tab' = NewTabs.name tab /\
       (NewTabs.isSelected tab' = Some true <-> NewTabs.id tab = NewTabs.id clickedTab) /\
       (NewTabs.isSelected tab' = Some false <-> NewTabs.id tab <> NewTabs.id clickedTab)).
  { intros i tab Hi. eexists. rewrite Htabs, list_lookup_fmap, Hi. simpl.
    split; [reflexivity|]. simpl. split; [reflexivity|]. split; [reflexivity|].
    destruct (String.eqb_spec (NewTabs.id clickedTab) (NewTabs.id tab)) as [Heq|Hne];
      split; split; intros H; try congruence; try reflexivity. }
  split; [subst c'; unfold NewTabs.tabClicked;
          destruct (NewTabs.tabClicked_map _ _ _ _ _) as [[? ?] ?]; reflexivity|].
  split; [subst c'; unfold NewTabs.tabClicked;
          destruct (NewTabs.tabClicked_map _ _ _ _ _) as [[? ?] ?]; reflexivity|].
  split; [rewrite Htabs; apply length_fmap|]. split; [exact Hlook|].
  intros k tk Hnd Hk Hid i tab' Hi.
  assert (Hlt : (i < length (NewTabs.tabs c))%nat).
  { apply lookup_lt_Some in Hi. rewrite Htabs, length_fmap in Hi. exact Hi. }
  destruct (lookup_lt_is_Some_2 _ _ Hlt) as [tab Htab].
  destruct (Hlook i tab Htab) as (tab0 & Hi0 & _ & _ & Hsel & _).
  rewrite Hi in Hi0. injection Hi0 as <-. rewrite Hsel. split.
  - intros Hsame.
    apply (NoDup_lookup (NewTabs.id <$> NewTabs.tabs c) i k (NewTabs.id clickedTab) Hnd).
    + rewrite list_lookup_fmap, Htab. simpl. congruence.
    + rewrite list_lookup_fmap, Hk. simpl. congruence.
  - intros ->. rewrite Hk in Htab. injection Htab as <-. exact Hid.
Qed.

Lemma tabClicked_simple_witness :
  NewTabs.isSelected <$>
    NewTabs.tabs (NewTabs.tabClicked
                    (NewTabs.mkTab "Settings" "settings" None None (Some NewTabs.SIMPLE))
                    true sampleTabBar)
  = [Some false; Some true; Some false] /\
  forall i tab',
    NewTabs.tabs (NewTabs.tabClicked
                    (NewTabs.mkTab "Settings" "settings" None None (Some NewTabs.SIMPLE))
                    true sampleTabBar) !! i = Some tab' ->
    (NewTabs.isSelected tab' = Some true <-> i = 1%nat).
Proof.
  split; [reflexivity|].
  destruct (tabClicked_simple sampleTabBar
              (NewTabs.mkTab "Settings" "settings" None None (Some NewTabs.SIMPLE))
              true eq_refl) as (_ & _ & _ & _ & Hone).
  apply (Hone 1%nat (NewTabs.mkTab "Settings" "settings" None None (Some NewTabs.SIMPLE)));
    [|reflexivity..].
  apply (bool_decide_unpack (NoDup (NewTabs.id <$> NewTabs.tabs sampleTabBar))).
  vm_compute. exact I.
Defined.

(** X20. Choosing a static tab that is one of the tabs leaves selected the
    last tab that was selected before, and only that one; when no tab was
    selected, none is afterwards.  The id of the static tab still becomes
    [selectedTabId]. *)
Theorem tabClicked_static (c : NewTabs.Tabs) (clickedTab : NewTabs.TabDetails)
    (isOverflowTab : bool) (k : nat) (tk : NewTabs.TabDetails) :
  NewTabs.isStatic clickedTab = true ->
  NewTabs.tabs c !! k = Some tk ->
  NewTabs.id tk = NewTabs.id clickedTab ->
  let c' := NewTabs.tabClicked clickedTab isOverflowTab c in
  NewTabs.selectedTabId c' = NewTabs.id clickedTab /\
  length (NewTabs.tabs c') = length (NewTabs.tabs c) /\
  (forall m tm,
     NewTabs.tabs c !! m = Some tm -> truthy (NewTabs.isSelected tm) = true ->
     (forall j tj, NewTabs.tabs c !! j = Some tj ->
                   truthy (NewTabs.isSelected tj) = true -> (j <= m)%nat) ->
     forall i tab', NewTabs.tabs c' !! i = Some tab' ->
       (NewTabs.isSelected tab' = Some true <-> i = m) /\
       (i <> m -> NewTabs.isSelected tab' = Some false)) /\
  ((forall j tj, NewTabs.tabs c !! j = Some tj ->
                 truthy (NewTabs.isSelected tj) = false) ->
   forall i tab', NewTabs.tabs c' !! i = Some tab' ->
                  NewTabs.isSelected tab' = Some false).
Proof.
  intros Hst Hk Hid c'.
  set (cleared := (fun tab => NewTabs.setSelected false tab) <$> NewTabs.tabs c).
  assert (Htabs : NewTabs.tabs c' =
                  match NewTabs.lastSelectedIndex (NewTabs.tabs c) with
                  | Some m => alter (NewTabs.setSelected true) m cleared
                  | None => cleared
                  end).
  { subst c'. unfold NewTabs.tabClicked. rewrite tabClicked_map_spec, Hst.
    rewrite (existsb_id_lookup clickedTab _ k tk Hk Hid). simpl.
    assert (Hcl : (fun tab => NewTabs.setSelected
                     (String.eqb (NewTabs.id clickedTab) (NewTabs.id tab) && false) tab)
                    <$> NewTabs.tabs c = cleared).
    { apply list_fmap_ext. intros i tab _. rewrite andb_false_r. reflexivity. }
    rewrite Hcl. destruct (NewTabs.lastSelectedIndex (NewTabs.tabs c)); reflexivity. }
  assert (Hcleared : forall i tab', cleared !! i = Some tab' ->
                                    NewTabs.isSelected tab' = Some false).
  { intros i tab'. unfold cleared. rewrite list_lookup_fmap.
    destruct (NewTabs.tabs c !! i); [|discriminate]. intros [= <-]. reflexivity. }
  pose proof (lastSelectedIndex_spec (NewTabs.tabs c)) as Hlast.
  split; [subst c'; unfold NewTabs.tabClicked;
          destruct (NewTabs.tabClicked_map _ _ _ _ _) as [[? ?] ?]; reflexivity|].
  split; [|split].
  - rewrite Htabs. destruct (NewTabs.lastSelectedIndex (NewTabs.tabs c));
      rewrite ?length_alter; unfold cleared; apply length_fmap.
  - intros m tm Hm Htm Hmax i tab' Hi.
    destruct (NewTabs.lastSelectedIndex (NewTabs.tabs c)) as [m'|].
    + destruct Hlast as [[tm' [Hm' Htm']] Hmax'].
      assert (m' = m) as -> by (apply Nat.le_antisymm; eauto).
      rewrite Htabs in Hi. destruct (decide (i = m)) as [->|Hne].
      * rewrite list_lookup_alter_eq in Hi.
        destruct (cleared !! m); [|discriminate]. injection Hi as <-.
        split; [split; [reflexivity | reflexivity] | congruence].
      * rewrite list_lookup_alter_ne in Hi by congruence.
        rewrite (Hcleared i tab' Hi). split; [split; congruence | reflexivity].
    + rewrite (Hlast m tm Hm) in Htm. discriminate.
  - intros Hnone i tab' Hi.
    destruct (NewTabs.lastSelectedIndex (NewTabs.tabs c)) as [m'|].
    + destruct Hlast as [[tm' [Hm' Htm']] _]. rewrite (Hnone m' tm' Hm') in Htm'.
      discriminate.
    + rewrite Htabs in Hi. exact (Hcleared i tab' Hi).
Qed.

Lemma tabClicked_static_witness :
  NewTabs.isSelected <$>
    NewTabs.tabs (NewTabs.tabClicked
                    (NewTabs.mkTab "Docs" "docs" None None (Some NewTabs.STATIC))
                    true sampleTabBar)
  = [Some true; Some false; Some false] /\
  NewTabs.selectedTabId
    (NewTabs.tabClicked (NewTabs.mkTab "Docs" "docs" None None (Some NewTabs.STATIC))
                        true sampleTabBar) = "docs".
Proof.
  split; [reflexivity|].
  apply (tabClicked_static sampleTabBar
           (NewTabs.mkTab "Docs" "docs" None None (Some NewTabs.STATIC)) true 2
           (NewTabs.mkTab "Docs" "docs" None None (Some NewTabs.STATIC)));
    reflexivity.
Defined.

Lemma drop_lookup_cons {A : Type} (l : list A) (index : nat) (x : A) (rest : list A) :
  drop index l = x :: rest -> drop (S index) l = rest.
Proof.
  revert index. induction l as [|a l IH]; intros [|index] H; simpl in *;
    try discriminate.
  - injection H as _ ->. reflexivity.
  - apply IH. exact H.
Qed.

Lemma renderTabLinks_map_after_overflow (c : NewTabs.Tabs) (rest : list NewTabs.TabDetails)
    (index : nat) :
  (forall k, NewTabs.overflowTabsFrom c = Some k -> (k < index)%nat) ->
  concat (NewTabs.shownTabs <$> NewTabs.renderTabLinks_map c index rest true) = [].
Proof.
  revert index. induction rest as [|tab rest IH]; intros index Hpast; [reflexivity|].
  cbn [NewTabs.renderTabLinks_map].
  rewrite (bool_decide_eq_false_2 (NewTabs.overflowTabsFrom c = Some index)).
  - rewrite andb_false_r. simpl. apply IH. intros k Hk. specialize (Hpast k Hk). lia.
  - intros Hk. specialize (Hpast index Hk). lia.
Qed.

(** X21. The tab bar shows every tab once and in order: the buttons and the
    entries of the overflow menu, taken together, are the tabs.  There is one
    entry of the bar per tab; without an overflow position (or in a vertical
    bar) every entry is a button. *)
Theorem renderTabLinks_shows_every_tab (c : NewTabs.Tabs) :
  concat (NewTabs.shownTabs <$> NewTabs.renderTabLinks c) = NewTabs.tabs c /\
  length (NewTabs.renderTabLinks c) = length (NewTabs.tabs c) /\
  (NewTabs.tabOrientation c = NewTabs.VERTICAL \/ NewTabs.overflowTabsFrom c = None ->
   NewTabs.renderTabLinks c =
   imap (fun index tab =>
           Some (NewTabs.TabLink tab index
                   (String.eqb (NewTabs.id tab) (NewTabs.selectedTabId c))))
        (NewTabs.tabs c)).
Proof.
  unfold NewTabs.renderTabLinks. split; [|split].
  - assert (H : forall rest index, drop index (NewTabs.tabs c) = rest ->
              concat (NewTabs.shownTabs <$> NewTabs.renderTabLinks_map c index rest false)
              = rest).
    { induction rest as [|tab rest IH]; intros index Hdrop; [reflexivity|].
      cbn [NewTabs.renderTabLinks_map].
      pose proof (drop_lookup_cons _ _ _ _ Hdrop) as Hdrop'.
      destruct (match NewTabs.tabOrientation c with
                | NewTabs.HORIZONTAL => true
                | NewTabs.VERTICAL => false
                end && bool_decide (NewTabs.overflowTabsFrom c = Some index)) eqn:Hcond.
      - simpl. rewrite Hdrop.
        rewrite renderTabLinks_map_after_overflow; [apply app_nil_r|].
        apply andb_prop in Hcond as [_ Hk]. apply bool_decide_eq_true_1 in Hk.
        intros k Hk'. rewrite Hk in Hk'. injection Hk' as <-. lia.
      - simpl. f_equal. apply IH. exact Hdrop'. }
    apply H. reflexivity.
  - generalize 0%nat false. induction (NewTabs.tabs c) as [|tab rest IH];
      intros index flag; [reflexivity|].
    cbn [NewTabs.renderTabLinks_map].
    destruct (_ && _); [|destruct (negb flag)]; simpl; rewrite IH; reflexivity.
  - intros Hcase.
    assert (H : forall rest index,
              NewTabs.renderTabLinks_map c index rest false =
              imap (fun i tab =>
                      Some (NewTabs.TabLink tab (index + i)
                              (String.eqb (NewTabs.id tab) (NewTabs.selectedTabId c))))
                   rest).
    { induction rest as [|tab rest IH]; intros index; [reflexivity|].
      cbn [NewTabs.renderTabLinks_map].
      assert (Hcond : match NewTabs.tabOrientation c with
                      | NewTabs.HORIZONTAL => true
                      | NewTabs.VERTICAL => false
                      end && bool_decide (NewTabs.overflowTabsFrom c = Some index) = false).
      { destruct Hcase as [-> | ->]; [reflexivity|].
        rewrite bool_decide_eq_false_2 by discriminate. apply andb_false_r. }
      rewrite Hcond. simpl. rewrite Nat.add_0_r, IH. f_equal.
      apply imap_ext. intros i x _. simpl. rewrite Nat.add_succ_r. reflexivity. }
    rewrite H. apply imap_ext. intros i x _. reflexivity.
Qed.

(** ** Sorting: what stays *)

(** X22. A completed sort by column [i] shows the rows the sort function
    returned, with ids reassigned, and switches the loader off; the sort
    function was called with the rows shown before, the next order and the
    name of the column.  The column list, the pagination state and
    [selectAll] are as before.  When every column has a sort spec object of
    its own, every other sortable column keeps its order and sort function
    and has its active flag cleared. *)
Theorem activateSort_effect (g : DataGrid) (i : nat) (col : DataGridColumn) (l : loc)
    (s : DataGridSort) (data : list DataGridRow) :
  allColumns g !! i = Some col ->
  columnID col = Some i ->
  sort col = Some l ->
  sorts g !! l = Some s ->
  exists g',
    activateSort i data g = Ok g' /\
    allRows g' = updateRowIDs data /\ isLoading g' = false /\
    calls g' = (calls g ++ [CallSortFunction (sortFunction s) (allRows g)
                              (nextSortOrder (defaultSortOrder s)) (columnName col)])%list /\
    allColumns g' = allColumns g /\ pagination g' = pagination g /\
    selectAll g' = selectAll g /\
    (ownSortSpecs (allColumns g) ->
     forall j sj, j <> i -> columnSort g j = Some sj ->
       columnSort g' j = Some (mkSort (defaultSortOrder sj) (Some false) (sortFunction sj))).
Proof.
  intros Hi Hid Hl Hs.
  destruct (activateSort_Ok g i col l s data Hi Hid Hl Hs)
    as (g' & Hrun & Hcols & Hsorts & Hcalls & Hrows & Hload).
  exists g'. split; [exact Hrun|]. split; [exact Hrows|]. split; [exact Hload|].
  split; [exact Hcalls|]. split; [exact Hcols|].
  assert (Hframe : pagination g' = pagination g /\ selectAll g' = selectAll g).
  { revert Hrun. unfold activateSort. rewrite Hi. simpl. rewrite Hl. simpl.
    rewrite Hs, Hid. unfold handleSort_then, handleSort. simpl. rewrite Hi. simpl.
    rewrite Hl. intros [= <-]. split; reflexivity. }
  split; [apply Hframe|]. split; [apply Hframe|].
  intros Hown j sj Hne. unfold columnSort. rewrite Hcols.
  destruct (allColumns g !! j) as [cj|] eqn:Hj; simpl; [|discriminate].
  destruct (sort cj) as [lj|] eqn:Hlj; simpl; [|discriminate].
  intros Hsj.
  assert (Hll : lj <> l).
  { intros ->. apply Hne. exact (Hown j i cj col l Hj Hi Hlj Hl). }
  rewrite Hsorts, lookup_alter_ne by congruence.
  rewrite clearSortedFlags_lookup.
  rewrite decide_True by (eapply sort_elem_of_columns; eassumption).
  rewrite Hsj. reflexivity.
Qed.

Lemma activateSort_effect_witness :
  exists g',
    activateSort 0 sampleRows sampleGrid = Ok g' /\
    columnSort g' 1 = Some (mkSort ASC (Some false) 1%nat) /\
    calls g' = [CallSortFunction 1%nat sampleRows ASC "name"].
Proof.
  destruct (activateSort_effect sampleGrid 0
              (mkColumn "name" (Some 0%nat) (Some 0%nat) (Some true) (Some 100))
              0%nat (mkSort NONE None 1%nat) sampleRows eq_refl eq_refl eq_refl eq_refl)
    as (g' & Hrun & _ & _ & Hcalls & _ & _ & _ & Hothers).
  exists g'. split; [exact Hrun|]. split; [|exact Hcalls].
  apply (Hothers sampleColumns_ownSortSpecs 1%nat (mkSort ASC (Some true) 1%nat));
    [discriminate | reflexivity].
Defined.

(** ** When the pagination controls are shown *)

(** X23. In a grid whose pagination is up to date, the footer shows the
    pagination controls only when there are at least [pageSize] items, hence
    at least one item and at least one page; with fewer items than one page
    holds (in particular with none) it shows no controls. *)
Theorem pagination_controls_need_items (g : DataGrid) (p : DataGridPaginationState) :
  pagination g = Some p ->
  paginationOk g ->
  (renderPaginationFooter g = true ->
   1 <= totalItems p /\ pageSize p <= totalItems p /\ 1 <= totalPages p) /\
  (totalItems p < pageSize p -> renderPaginationFooter g = false).
Proof.
  intros Hp Hok. destruct (paginationOk_Some g p Hp Hok) as [Hpos Hder].
  unfold renderPaginationFooter. rewrite Hp. split.
  - intros Hfooter.
    apply andb_prop in Hfooter as [Hfooter Hge]. apply andb_prop in Hfooter as [Hti _].
    apply Z.leb_le in Hge. apply negb_true_iff, Z.eqb_neq in Hti.
    assert (Hitems : 1 <= totalItems p) by lia.
    split; [exact Hitems|]. split; [exact Hge|].
    apply (derivedFields_totalPages p Hpos Hder). exact Hitems.
  - intros Hlt. rewrite (proj2 (Z.leb_gt _ _) Hlt). apply andb_false_r.
Qed.

Lemma pagination_controls_need_items_witness :
  (renderPaginationFooter pagedGrid = true /\ renderPaginationFooter emptyGrid = false).
Proof.
  split.
  - reflexivity.
  - apply (pagination_controls_need_items emptyGrid
             (mkPagination 1 10 0 1 0 0 None (Some false)) eq_refl).
    + apply (paginationOk_constructor _ emptyProps); [reflexivity | simpl; lia].
    + simpl. lia.
Defined.

Lemma renderTabLinks_map_active (c : NewTabs.Tabs) (rest : list NewTabs.TabDetails)
    (index : nat) (flag : bool) (item : option NewTabs.TabItem) :
  item ∈ NewTabs.renderTabLinks_map c index rest flag ->
  match item with
  | Some (NewTabs.TabLink tab _ active) =>
      tab ∈ rest /\
      active = String.eqb (NewTabs.id tab) (NewTabs.selectedTabId c)
  | Some (NewTabs.OverflowTab _ _ active) => active = NewTabs.isOverflowTabSelected c
  | None => True
  end.
Proof.
  revert index flag. induction rest as [|tab rest IH]; intros index flag Hin;
    [inversion Hin|].
  cbn [NewTabs.renderTabLinks_map] in Hin.
  assert (Hrec : forall index' flag',
            item ∈ NewTabs.renderTabLinks_map c index' rest flag' ->
            match item with
            | Some (NewTabs.TabLink tab0 _ active) =>
                tab0 ∈ tab :: rest /\
                active = String.eqb (NewTabs.id tab0) (NewTabs.selectedTabId c)
            | Some (NewTabs.OverflowTab _ _ active) =>
                active = NewTabs.isOverflowTabSelected c
            | None => True
            end).
  { intros index' flag' H. specialize (IH index' flag' H).
    destruct item as [[tab0 i0 a0|ts i0 a0]|]; auto.
    destruct IH as [Hr Ha]. split; [right; exact Hr | exact Ha]. }
  destruct (_ && _).
  - apply elem_of_cons in Hin as [->|Hin]; [reflexivity | eapply Hrec; exact Hin].
  - destruct (negb flag).
    + apply elem_of_cons in Hin as [->|Hin]; [|eapply Hrec; exact Hin].
      split; [left | reflexivity].
    + apply elem_of_cons in Hin as [->|Hin]; [exact I | eapply Hrec; exact Hin].
Qed.

(** X24. A new tab bar has the id of its first tab as [selectedTabId],
    whatever the [isSelected] flags say, and cannot be built without tabs.
    After a click handled by [tabClick] or [tabClicked], a tab button carries
    the active class exactly when its tab has the id of the clicked tab, and
    the overflow button exactly when the click came from the overflow menu. *)
Theorem tab_highlight :
  (forall o k, NewTabs.constructor [] o k = TypeError) /\
  (forall tab tabs o k,
     NewTabs.constructor (tab :: tabs) o k =
     Ok (NewTabs.mkTabs (tab :: tabs) o k false (NewTabs.id tab))) /\
  (forall c clickedTab isOverflowTab c',
     c' = NewTabs.tabClick clickedTab isOverflowTab c \/
     c' = NewTabs.tabClicked clickedTab isOverflowTab c ->
     forall item, item ∈ NewTabs.renderTabLinks c' ->
       match item with
       | Some (NewTabs.TabLink tab _ active) =>
           active = true <-> NewTabs.id tab = NewTabs.id clickedTab
       | Some (NewTabs.OverflowTab _ _ active) => active = isOverflowTab
       | None => True
       end).
Proof.
  split; [reflexivity|]. split; [reflexivity|].
  intros c clickedTab isOverflowTab c' Hc' item Hin.
  assert (Hstate : NewTabs.selectedTabId c' = NewTabs.id clickedTab /\
                   NewTabs.isOverflowTabSelected c' = isOverflowTab).
  { destruct Hc' as [-> | ->]; [split; reflexivity|].
    unfold NewTabs.tabClicked.
    destruct (NewTabs.tabClicked_map _ _ _ _ _) as [[? ?] ?]. split; reflexivity. }
  destruct Hstate as [Hid Hover].
  pose proof (renderTabLinks_map_active c' _ _ _ item Hin) as Hitem.
  destruct item as [[tab i a|ts i a]|]; [| |exact I].
  - destruct Hitem as [_ ->]. rewrite Hid. apply String.eqb_eq.
  - rewrite Hitem. exact Hover.
Qed.

Lemma tab_highlight_witness :
  NewTabs.renderTabLinks
    (NewTabs.tabClick (NewTabs.mkTab "Home" "home" (Some true) None None) false
                      sampleTabBar)
  = [ Some (NewTabs.TabLink (NewTabs.mkTab "Home" "home" (Some true) None None) 0 true);
      Some (NewTabs.OverflowTab
              [ NewTabs.mkTab "Settings" "settings" None None (Some NewTabs.SIMPLE);
                NewTabs.mkTab "Docs" "docs" None None (Some NewTabs.STATIC) ] 1 false);
      None ] /\
  (true = true <-> "home" = "home").
Proof.
  split; [reflexivity|].
  destruct tab_highlight as (_ & _ & Hclick).
  apply (Hclick sampleTabBar (NewTabs.mkTab "Home" "home" (Some true) None None) false _
           (or_introl eq_refl)
           (Some (NewTabs.TabLink (NewTabs.mkTab "Home" "home" (Some true) None None) 0 true))).
  left.
Defined.
